(** * ISS tracker: a shallow embedding of [iss_tracker.py]

    The Flask application keeps the parsed ephemeris in two module globals,
    [all_data] and [state_vector_data], and answers every route from them.
    This development embeds the routes as functions over an explicit
    application state and proves the properties of the epoch store, the
    paginated listing, the nearest-epoch scan and the coordinate transform.

    Modelling conventions.
    - Python [int] is [Z]; the floats returned by [time.mktime] are whole
      numbers of seconds and are kept in [Z] as well.
    - A Python [float] is a [pyfloat]: a real number, or one of the values
      of IEEE arithmetic that are not real numbers (negative zero, the
      infinities, not-a-number).  Overflow to infinity, the exceptions of
      [**] and [math.sqrt] and the signed zeros of [math.atan2] follow the
      interpreter; the rounding of a finite result is not represented.
    - A Python [str] is a [string]; only ASCII text is considered.
    - A raised exception is a value of [outcome]; the routes that can raise
      return [outcome value].
    - The clock reading, the host's time zone and the reverse geocoder
      are inputs of the routes that use them. *)

From Stdlib Require Import ZArith List String Ascii Bool Lia.
From Stdlib Require Import Reals Lra.
From Stdlib Require Import DecimalString.
Import ListNotations.

Local Open Scope string_scope.
Local Open Scope Z_scope.

(* ================================================================== *)
(** * The Python runtime the program relies on *)

Module Py.

(** The exceptions that the modelled statements can raise. *)
Inductive exn : Type :=
| ValueError
| KeyError
| TypeError
| OverflowError
| UnboundLocalError.

(** The result of running a block of Python: a value, or an exception that
    propagates to the caller. *)
Inductive outcome (A : Type) : Type :=
| Returned (a : A)
| Raised (e : exn).

Arguments Returned {A} a.
Arguments Raised {A} e.

Definition bind {A B : Type} (m : outcome A) (k : A -> outcome B) : outcome B :=
  match m with
  | Returned a => k a
  | Raised e => Raised e
  end.

(** A library call that either yields a value or raises [e]. *)
Definition or_raise {A : Type} (e : exn) (o : option A) : outcome A :=
  match o with
  | Some a => Returned a
  | None => Raised e
  end.

(** [str(n)] for a length. *)
Definition str_of_nat (n : nat) : string :=
  NilZero.string_of_uint (Nat.to_uint n).

(** The line feed that ends the application's messages. *)
Definition nl : string := String "010" EmptyString.

(** ** [int(s)] on text *)

(** The ASCII white space that [int] and [float] skip at both ends: tab,
    line feed, vertical tab, form feed, carriage return and space. *)
Definition is_space (c : ascii) : bool :=
  let n := nat_of_ascii c in
  ((9 <=? n)%nat && (n <=? 13)%nat) || (n =? 32)%nat.

Definition digit_of (c : ascii) : option Z :=
  let n := nat_of_ascii c in
  if ((48 <=? n)%nat && (n <=? 57)%nat) then Some (Z.of_nat (n - 48)) else None.

Fixpoint lstrip (cs : list ascii) : list ascii :=
  match cs with
  | c :: r => if is_space c then lstrip r else cs
  | [] => []
  end.

Definition strip (cs : list ascii) : list ascii :=
  rev (lstrip (rev (lstrip cs))).

(** Decimal digits with single underscores allowed between two digits.
    [after_digit] tells whether the previous character was a digit. *)
Fixpoint int_digits (after_digit : bool) (acc : Z) (cs : list ascii) : option Z :=
  match cs with
  | [] => if after_digit then Some acc else None
  | c :: r =>
      match digit_of c with
      | Some d => int_digits true (10 * acc + d) r
      | None =>
          if (Ascii.eqb c "_" && after_digit)%bool
          then int_digits false acc r
          else None
      end
  end.

(** [int(s)] in base ten: surrounding white space, an optional sign, digits.
    [None] stands for [ValueError]. *)
Definition int (s : string) : option Z :=
  match strip (list_ascii_of_string s) with
  | "-"%char :: r => option_map Z.opp (int_digits false 0 r)
  | "+"%char :: r => int_digits false 0 r
  | r => int_digits false 0 r
  end.

(** ** Floats *)

(** A Python float.  [Finite r] is the double that stands for the real
    [r]; [Finite 0] is the positive zero. *)
Inductive pyfloat : Type :=
| Finite (r : R)
| NegZero
| PosInf
| NegInf
| NaN.

Coercion Finite : R >-> pyfloat.
Bind Scope R_scope with pyfloat.

(** Exact results from this magnitude on round to an infinity: the largest
    double plus half a unit in its last place. *)
Definition overflow_threshold : R := IZR (2 ^ 1024 - 2 ^ 970).

(** The float of an exact finite result. *)
Definition round (r : R) : pyfloat :=
  if Rlt_dec (Rabs r) overflow_threshold then Finite r
  else if Rlt_dec 0 r then PosInf else NegInf.

Definition sign_bit (x : pyfloat) : bool :=
  match x with
  | Finite r => if Rlt_dec r 0 then true else false
  | NegZero => true
  | NegInf => true
  | PosInf => false
  | NaN => false
  end.

Definition is_zero (x : pyfloat) : bool :=
  match x with
  | Finite r => if Req_dec_T r 0 then true else false
  | NegZero => true
  | _ => false
  end.

Definition is_inf (x : pyfloat) : bool :=
  match x with
  | PosInf | NegInf => true
  | _ => false
  end.

(** [- x]. *)
Definition fneg (x : pyfloat) : pyfloat :=
  match x with
  | Finite r => if Req_dec_T r 0 then NegZero else Finite (- r)
  | NegZero => Finite 0
  | PosInf => NegInf
  | NegInf => PosInf
  | NaN => NaN
  end.

(** [x + y]. *)
Definition fadd (x y : pyfloat) : pyfloat :=
  match x, y with
  | NaN, _ | _, NaN => NaN
  | PosInf, NegInf | NegInf, PosInf => NaN
  | PosInf, _ | _, PosInf => PosInf
  | NegInf, _ | _, NegInf => NegInf
  | NegZero, NegZero => NegZero
  | NegZero, Finite b => Finite b
  | Finite a, NegZero => Finite a
  | Finite a, Finite b => round (a + b)
  end.

(** [x - y]. *)
Definition fsub (x y : pyfloat) : pyfloat := fadd x (fneg y).

(** [x * y]. *)
Definition fmul (x y : pyfloat) : pyfloat :=
  match x, y with
  | NaN, _ | _, NaN => NaN
  | _, _ =>
      if (is_inf x && is_zero y) || (is_zero x && is_inf y) then NaN
      else if is_inf x || is_inf y then
        (if xorb (sign_bit x) (sign_bit y) then NegInf else PosInf)
      else if is_zero x || is_zero y then
        (if xorb (sign_bit x) (sign_bit y) then NegZero else Finite 0)
      else
        match x, y with
        | Finite a, Finite b => round (a * b)
        | _, _ => NaN
        end
  end.

Declare Scope float_scope.
Delimit Scope float_scope with float.
Arguments fadd (x y)%_float.
Arguments fsub (x y)%_float.
Arguments fmul (x y)%_float.
Infix "+" := fadd : float_scope.
Infix "-" := fsub : float_scope.
Infix "*" := fmul : float_scope.

(** [x ** 2]: the square, or [OverflowError] when a finite [x] has a
    square out of range. *)
Definition pow2 (x : pyfloat) : outcome pyfloat :=
  match x with
  | Finite r =>
      if Rlt_dec (r * r) overflow_threshold then Returned (Finite (r * r))
      else Raised OverflowError
  | NegZero => Returned (Finite 0)
  | PosInf | NegInf => Returned PosInf
  | NaN => Returned NaN
  end.

(** The square root of IEEE arithmetic. *)
Definition root (x : pyfloat) : pyfloat :=
  match x with
  | Finite r => if Rlt_dec r 0 then NaN else Finite (sqrt r)
  | NegZero => NegZero
  | PosInf => PosInf
  | NegInf => NaN
  | NaN => NaN
  end.

Arguments root x%_float.

(** [math.sqrt(x)]: a negative argument is a [ValueError]. *)
Definition math_sqrt (x : pyfloat) : outcome pyfloat :=
  match x with
  | Finite r => if Rlt_dec r 0 then Raised ValueError else Returned (root x)
  | NegInf => Raised ValueError
  | _ => Returned (root x)
  end.

Arguments math_sqrt x%_float.

(** The angle of the point [(x, y)] of the real plane, in [(-pi, pi]]. *)
Definition angle (y x : R) : R :=
  if Rlt_dec 0 x then atan (y / x)
  else if Rlt_dec x 0 then
    (if Rle_dec 0 y then atan (y / x) + PI else atan (y / x) - PI)
  else if Rlt_dec 0 y then PI / 2
  else if Rlt_dec y 0 then - (PI / 2)
  else 0.

(** [math.atan2(y, x)], with the signs of zeros and the infinities. *)
Definition math_atan2 (y x : pyfloat) : pyfloat :=
  match y, x with
  | NaN, _ | _, NaN => NaN
  | PosInf, PosInf => Finite (PI / 4)
  | PosInf, NegInf => Finite (3 * PI / 4)
  | PosInf, _ => Finite (PI / 2)
  | NegInf, PosInf => Finite (- (PI / 4))
  | NegInf, NegInf => Finite (- (3 * PI / 4))
  | NegInf, _ => Finite (- (PI / 2))
  | _, PosInf => if sign_bit y then NegZero else Finite 0
  | _, NegInf => if sign_bit y then Finite (- PI) else Finite PI
  | _, _ =>
      if is_zero y then
        if sign_bit x
        then (if sign_bit y then Finite (- PI) else Finite PI)
        else (if sign_bit y then NegZero else Finite 0)
      else
        match y, x with
        | Finite b, Finite a => Finite (angle b a)
        | Finite b, _ => Finite (angle b 0)
        | _, _ => NaN
        end
  end.

Arguments math_atan2 (y x)%_float.

(** [math.degrees(x)]: the product with the double nearest to 180 / pi. *)
Definition math_degrees (x : pyfloat) : pyfloat :=
  (x * Finite (180 / PI))%float.

Arguments math_degrees x%_float.

(** [a / b] for two ints, [b] not zero. *)
Definition true_div (a b : Z) : pyfloat := Finite (IZR a / IZR b).

(** The float of a small int in mixed arithmetic. *)
Definition of_int (a : Z) : pyfloat := Finite (IZR a).

(** ** [float(s)] on text *)

(** The longest run of decimal digits at the head of [cs]: the digits are
    accumulated onto [acc], [n] counts them, and the rest is returned. *)
Fixpoint digit_run (acc : Z) (n : nat) (cs : list ascii) : Z * nat * list ascii :=
  match cs with
  | c :: r =>
      match digit_of c with
      | Some d => digit_run (10 * acc + d) (S n) r
      | None => (acc, n, cs)
      end
  | [] => (acc, n, [])
  end.

Definition starts_with_digit (cs : list ascii) : bool :=
  match cs with
  | c :: _ => match digit_of c with Some _ => true | None => false end
  | [] => false
  end.

(** The same for a float literal, where one underscore may stand between
    two digits. *)
Fixpoint float_run (acc : Z) (n : nat) (cs : list ascii) : Z * nat * list ascii :=
  match cs with
  | c :: r =>
      match digit_of c with
      | Some d => float_run (10 * acc + d) (S n) r
      | None =>
          if (Ascii.eqb c "_" && negb (n =? 0)%nat && starts_with_digit r)%bool
          then float_run acc n r
          else (acc, n, cs)
      end
  | [] => (acc, n, [])
  end.

(** An exact decimal: [mantissa * 10 ^ exponent]. *)
Record decimal : Type := { mantissa : Z; exponent : Z }.

Definition split_sign (cs : list ascii) : Z * list ascii :=
  match cs with
  | "-"%char :: r => (-1, r)
  | "+"%char :: r => (1, r)
  | _ => (1, cs)
  end.

(** What may follow the mantissa: nothing, or [e] and a signed integer. *)
Definition float_exponent (cs : list ascii) : option Z :=
  match cs with
  | [] => Some 0
  | c :: r =>
      if (Ascii.eqb c "e" || Ascii.eqb c "E")%bool then
        let '(sg, r') := split_sign r in
        match float_run 0 0 r' with
        | (v, S _, []) => Some (sg * v)
        | _ => None
        end
      else None
  end.

Definition float_unsigned (cs : list ascii) : option decimal :=
  let '(ip, n1, r1) := float_run 0 0 cs in
  let '(m, n2, r2) :=
    match r1 with
    | "."%char :: t => float_run ip 0 t
    | _ => (ip, 0%nat, r1)
    end in
  if (n1 + n2 =? 0)%nat then None
  else option_map (fun e => {| mantissa := m; exponent := e - Z.of_nat n2 |})
                  (float_exponent r2).

Definition lower (c : ascii) : ascii :=
  let n := nat_of_ascii c in
  if ((65 <=? n)%nat && (n <=? 90)%nat)%bool then ascii_of_nat (n + 32) else c.

(** What a text that [float] accepts denotes. *)
Inductive numeral : Type :=
| NumNaN
| NumInf (negative : bool)
| NumDecimal (negative : bool) (d : decimal).

(** The numeral that [float(s)] reads: surrounding white space, an
    optional sign, then [nan], [inf] or [infinity] in any case, or digits
    with an optional fraction and exponent.  [None] stands for
    [ValueError]. *)
Definition float_numeral (s : string) : option numeral :=
  let '(sg, r) := split_sign (strip (list_ascii_of_string s)) in
  let word := string_of_list_ascii (map lower r) in
  if String.eqb word "nan" then Some NumNaN
  else if (String.eqb word "inf" || String.eqb word "infinity")%bool
  then Some (NumInf (sg <? 0))
  else option_map (NumDecimal (sg <? 0)) (float_unsigned r).

Definition decimal_value (d : decimal) : R :=
  if 0 <=? exponent d
  then IZR (mantissa d * 10 ^ exponent d)
  else (IZR (mantissa d) / IZR (10 ^ (- exponent d)))%R.

(** The float of a numeral: a zero keeps its sign, a decimal out of
    range is an infinity. *)
Definition numeral_value (l : numeral) : pyfloat :=
  match l with
  | NumNaN => NaN
  | NumInf negative => if negative then NegInf else PosInf
  | NumDecimal negative d =>
      if mantissa d =? 0 then (if negative then NegZero else Finite 0)
      else round (if negative then - decimal_value d else decimal_value d)
  end.

(** [float(s)]. *)
Definition float (s : string) : option pyfloat :=
  option_map numeral_value (float_numeral s).

(** ** [time.strptime(s, '%Y-%jT%H:%M:%S')] and [time.mktime] *)

(** The fields of the [struct_time] that the format fills in.  ([strptime]
    also derives month and day of month from year and day of year;
    [mktime] reads the date back from them, so the pair year, day of year
    carries the same information.) *)
Record struct_time : Type := {
  tm_year : Z;
  tm_yday : Z;
  tm_hour : Z;
  tm_min : Z;
  tm_sec : Z
}.

(** One numeric directive: a run of [lo] to [hi] digits whose value lies
    in [[vmin, vmax]]. *)
Definition directive (lo hi : nat) (vmin vmax : Z) (cs : list ascii)
  : option (Z * list ascii) :=
  let '(v, n, r) := digit_run 0 0 cs in
  if ((lo <=? n)%nat && (n <=? hi)%nat && (vmin <=? v) && (v <=? vmax))%bool
  then Some (v, r) else None.

(** One literal character of the format; the match ignores case. *)
Definition literal (c c' : ascii) (cs : list ascii) : option (list ascii) :=
  match cs with
  | a :: r => if (Ascii.eqb a c || Ascii.eqb a c')%bool then Some r else None
  | [] => None
  end.

Definition is_leap (y : Z) : bool :=
  ((y mod 4 =? 0) && negb (y mod 100 =? 0)) || (y mod 400 =? 0).

Definition days_in_year (y : Z) : Z := if is_leap y then 366 else 365.

(** [None] stands for [ValueError]: the text does not match the format, or
    the day of year runs past the last representable date. *)
Definition strptime (s : string) : option struct_time :=
  match directive 4 4 0 9999 (list_ascii_of_string s) with
  | None => None
  | Some (y, r) =>
  match literal "-" "-" r with
  | None => None
  | Some r =>
  match directive 1 3 1 366 r with
  | None => None
  | Some (j, r) =>
  match literal "T" "t" r with
  | None => None
  | Some r =>
  match directive 1 2 0 23 r with
  | None => None
  | Some (h, r) =>
  match literal ":" ":" r with
  | None => None
  | Some r =>
  match directive 1 2 0 59 r with
  | None => None
  | Some (mi, r) =>
  match literal ":" ":" r with
  | None => None
  | Some r =>
  match directive 1 2 0 61 r with
  | Some (sec, []) =>
      if ((1 <=? y) && ((y <? 9999) || (j <=? days_in_year y)))%bool
      then Some {| tm_year := y; tm_yday := j; tm_hour := h;
                   tm_min := mi; tm_sec := sec |}
      else None
  | _ => None
  end end end end end end end end end.

(** Leap days in the years [1 .. y]. *)
Definition leap_days (y : Z) : Z := y / 4 - y / 100 + y / 400.

(** Days from 1970-01-01 to the given day of the given year. *)
Definition days_from_epoch (y j : Z) : Z :=
  365 * (y - 1970) + (leap_days (y - 1) - leap_days 1969) + (j - 1).

(** [time.mktime(t)] for a broken-down time that leaves the daylight
    saving flag open, as [strptime] returns it: [t] is read as local time,
    which at that wall-clock time runs [utc_offset t] seconds ahead of
    UTC (the host's zone, with its daylight saving rules).  The result is
    a whole number of seconds. *)
Definition mktime (utc_offset : struct_time -> Z) (t : struct_time) : Z :=
  days_from_epoch (tm_year t) (tm_yday t) * 86400
  + tm_hour t * 3600 + tm_min t * 60 + tm_sec t - utc_offset t.

(** [math.fabs] on a whole number of seconds. *)
Definition fabs (x : Z) : Z := Z.abs x.

(** ** Slices *)

(** [s[a:b]] for [0 <= a <= b]. *)
Definition slice (a b : nat) (s : string) : string := substring a (b - a) s.

(** [s[:-k]]. *)
Definition drop_last (k : nat) (s : string) : string :=
  substring 0 (String.length s - k) s.

End Py.

Import Py.

(** Sequencing of statements: the first exception raised ends the block. *)
Notation "x <- m ;; k" := (Py.bind m (fun x => k))
  (at level 61, m at next level, right associativity).



(* ================================================================== *)
(** * The data the application holds and returns *)

(** An XML element with a unit attribute, as [xmltodict] renders it:
    [{'@units': ..., '#text': ...}]. *)
Record quantity : Type := { units : string; text : string }.

(** One [stateVector] element of the ephemeris. *)
Record stateVector : Type := {
  EPOCH : string;
  X : quantity;
  Y : quantity;
  Z_ : quantity;
  X_DOT : quantity;
  Y_DOT : quantity;
  Z_DOT : quantity
}.

(** The parsed document, reduced to the part that the modelled routes
    read: [all_data['ndm']['oem']['body']['segment']['data']].  Each list
    holds the elements of that name in document order; the parser leaves
    out the key of a name without elements.  The ephemeris is taken to
    carry several state vectors, for which the parser yields a list. *)
Record ndm : Type := {
  COMMENT : list string;
  data_stateVector : list stateVector
}.

(** The module globals.  [all_data = None] is the empty dict that
    [delete_all_data] installs; a parsed document is never empty. *)
Record globals : Type := {
  all_data : option ndm;
  state_vector_data : list stateVector
}.

(** The dict built by [get_state_vector]. *)
Record state_vector : Type := {
  sv_EPOCH : string;
  sv_X : pyfloat;
  sv_Y : pyfloat;
  sv_Z : pyfloat;
  sv_X_DOT : pyfloat;
  sv_Y_DOT : pyfloat;
  sv_Z_DOT : pyfloat
}.

(** A number with its unit.  [get_speed] stores the number as its decimal
    rendering ([str]); the model keeps the number. *)
Record measure : Type := { m_value : pyfloat; m_units : string }.

(** The dict built by [convert_j2k_to_geoposition]. *)
Record geodata : Type := {
  latitude : pyfloat;
  longitude : pyfloat;
  altitude : measure
}.

(** What the reverse geocoder contributes: the address fields, or the note
    that the point is over water. *)
Inductive geo : Type :=
| Address (fields : list (string * string))
| OverWater.

Record location_data : Type := {
  ld_EPOCH : string;
  ld_location : geodata;
  ld_geo : geo;
  ld_speed : measure
}.

Record location_now : Type := {
  ln_closest_epoch : string;
  ln_seconds_from_now : Z;
  ln_location : geodata;
  ln_geo : geo;
  ln_speed : measure
}.

(** The Python values that the routes return and hand to one another. *)
Inductive value : Type :=
| Text (body : string)
| TextStatus (body : string) (status : Z)
| EpochList (epochs : list string)
| StateVectorDict (sv : state_vector)
| SpeedDict (speed : measure)
| Geodata (g : geodata)
| LocationData (ld : location_data)
| LocationNow (ln : location_now).

Definition MEAN_EARTH_RADIUS : Z := 6371.

(** ** Messages *)

Definition data_deleted : string :=
  "Error: ISS Data has been deleted. Use route '/post-data' to restore data." ++ nl.

Definition invalid_limit : string :=
  "Invalid limit parameter; limit must be an integer." ++ nl.

Definition negative_limit : string :=
  "Error: limit must be a positive integer." ++ nl.

Definition invalid_offset : string :=
  "Invalid offset parameter; offset must be an integer." ++ nl.

Definition negative_offset : string :=
  "Error: offset must be a positive integer." ++ nl.

Definition offset_out_of_range (total : nat) : string :=
  "Error: offset is equal to or greater than number of epochs ("
  ++ str_of_nat total ++ ")." ++ nl.

Definition epoch_not_found : string := "Epoch not found." ++ nl.

Definition speed_not_found : string :=
  "Epoch not found. Speed cannot be calculated." ++ nl.

Definition invalid_epoch : string := "Invalid Epoch".

Definition invalid_epoch_hint : string :=
  "Invalid Epoch." ++ nl
  ++ "For a list of valid epochs, please access '/epochs'." ++ nl.

(** ** The store: [delete_all_data] and [retrieve_data_again] *)

Definition delete_all_data (g : globals) : globals * string :=
  ({| all_data := None; state_vector_data := [] |},
   "Successfully deleted all ISS Data" ++ nl).

(** [fetched] is the document that the download and [xmltodict.parse]
    produce.  It is bound to [all_data] first; the subscripts that follow
    raise [KeyError] when the document has no state vector, and then
    [state_vector_data] keeps what it held. *)
Definition retrieve_data_again (fetched : ndm) (g : globals)
  : globals * outcome string :=
  match data_stateVector fetched with
  | [] =>
      ({| all_data := Some fetched; state_vector_data := state_vector_data g |},
       Raised KeyError)
  | items =>
      ({| all_data := Some fetched; state_vector_data := items |},
       Returned ("Restored ISS Data" ++ nl))
  end.

(** [not all_data]. *)
Definition no_data (g : globals) : bool :=
  match all_data g with
  | None => true
  | Some _ => false
  end.

(** [len(state_vector_data)]. *)
Definition len (g : globals) : nat := List.length (state_vector_data g).

(** ** [get_list_of_epochs] *)

(** [int(request.args.get(name, default))]: the query parameter when it is
    present, the default otherwise.  [None] stands for [ValueError]. *)
Definition int_arg (arg : option string) (default : Z) : option Z :=
  match arg with
  | Some s => Py.int s
  | None => Some default
  end.

(** The [for item in state_vector_data] loop with its two counters. *)
Fixpoint epochs_loop (limit offset : Z) (items : list stateVector)
    (offset_count epoch_count : Z) (list_of_epochs : list string) : list string :=
  match items with
  | [] => list_of_epochs
  | item :: rest =>
      if offset_count <? offset then
        epochs_loop limit offset rest (offset_count + 1) epoch_count list_of_epochs
      else if epoch_count =? limit then
        list_of_epochs
      else
        epochs_loop limit offset rest offset_count (epoch_count + 1)
                    (list_of_epochs ++ [EPOCH item])%list
  end.

Definition get_list_of_epochs (g : globals) (limit_arg offset_arg : option string)
  : value :=
  if no_data g then Text data_deleted
  else
    match int_arg limit_arg (Z.of_nat (len g)) with
    | None => TextStatus invalid_limit 400
    | Some limit =>
        if limit <? 0 then Text negative_limit
        else
          match int_arg offset_arg 0 with
          | None => TextStatus invalid_offset 400
          | Some offset =>
              if offset <? 0 then Text negative_offset
              else if offset >=? Z.of_nat (len g) then
                Text (offset_out_of_range (len g))
              else
                EpochList
                  (epochs_loop limit offset (state_vector_data g) 0 0 [])
          end
    end.

(** ** [get_state_vector] and [get_speed] *)

(** [float(q['#text'])]. *)
Definition float_of (q : quantity) : outcome pyfloat :=
  or_raise ValueError (Py.float (text q)).

Fixpoint state_vector_loop (epoch : string) (items : list stateVector)
  : outcome value :=
  match items with
  | [] => Returned (Text epoch_not_found)
  | i :: rest =>
      if String.eqb (EPOCH i) epoch then
        x <- float_of (X i) ;;
        y <- float_of (Y i) ;;
        z <- float_of (Z_ i) ;;
        x_dot <- float_of (X_DOT i) ;;
        y_dot <- float_of (Y_DOT i) ;;
        z_dot <- float_of (Z_DOT i) ;;
        Returned (StateVectorDict
                    {| sv_EPOCH := epoch; sv_X := x; sv_Y := y; sv_Z := z;
                       sv_X_DOT := x_dot; sv_Y_DOT := y_dot; sv_Z_DOT := z_dot |})
      else state_vector_loop epoch rest
  end.

Definition get_state_vector (g : globals) (epoch : string) : outcome value :=
  if no_data g then Returned (Text data_deleted)
  else state_vector_loop epoch (state_vector_data g).

Fixpoint speed_loop (epoch : string) (items : list stateVector) : outcome value :=
  match items with
  | [] => Returned (Text speed_not_found)
  | i :: rest =>
      if String.eqb (EPOCH i) epoch then
        x_dot <- float_of (X_DOT i) ;;
        y_dot <- float_of (Y_DOT i) ;;
        z_dot <- float_of (Z_DOT i) ;;
        xx <- pow2 x_dot ;;
        yy <- pow2 y_dot ;;
        zz <- pow2 z_dot ;;
        speed <- math_sqrt (xx + yy + zz) ;;
        Returned (SpeedDict {| m_value := speed; m_units := "km/s" |})
      else speed_loop epoch rest
  end.

Definition get_speed (g : globals) (epoch : string) : outcome value :=
  if no_data g then Returned (Text data_deleted)
  else speed_loop epoch (state_vector_data g).

(** ** [convert_j2k_to_geoposition] *)

(** The argument is whatever [get_state_vector] returned.  Only the dict
    of a found epoch has the keys [X], [Y], [Z] and [EPOCH]; on any other
    value a lookup raises inside the [try] and the function returns its
    message. *)
Definition convert_j2k_to_geoposition (state_vector_dict : value) : outcome value :=
  match state_vector_dict with
  | StateVectorDict sv =>
      let x := sv_X sv in
      let y := sv_Y sv in
      let z := sv_Z sv in
      let epoch := sv_EPOCH sv in
      hrs <- or_raise ValueError (Py.int (slice 9 11 epoch)) ;;
      mins <- or_raise ValueError (Py.int (slice 12 14 epoch)) ;;
      xx <- pow2 x ;;
      yy <- pow2 y ;;
      r <- math_sqrt (xx + yy) ;;
      let lat := math_degrees (math_atan2 z r) in
      let lon := (math_degrees (math_atan2 y x)
                  - (of_int (hrs - 12) + true_div mins 60) * true_div 360 24
                  + of_int 24)%float in
      xx <- pow2 x ;;
      yy <- pow2 y ;;
      zz <- pow2 z ;;
      d <- math_sqrt (xx + yy + zz) ;;
      let alt := (d - of_int MEAN_EARTH_RADIUS)%float in
      Returned (Geodata {| latitude := lat; longitude := lon;
                           altitude := {| m_value := alt; m_units := "km" |} |})
  | _ => Returned (Text invalid_epoch)
  end.

(* ================================================================== *)
(** * The routes that use the clock and the geocoder *)

Section Service.

(** The host's time zone: how many seconds local time runs ahead of UTC
    at a given wall-clock time. *)
Variable utc_offset : struct_time -> Z.

(** [geocoder.reverse((lat, lon), zoom=15, language='en')]: the address
    fields of the place, or [None] where the service knows none (then
    [geoloc.raw] raises [AttributeError], which the route catches). *)
Variable geocoder_reverse : pyfloat -> pyfloat -> option (list (string * string)).

(** [time.mktime(time.strptime(epoch[:-5], '%Y-%jT%H:%M:%S'))]. *)
Definition epoch_time (epoch : string) : option Z :=
  option_map (mktime utc_offset) (strptime (drop_last 5 epoch)).

Definition locate (g : geodata) : geo :=
  match geocoder_reverse (latitude g) (longitude g) with
  | Some fields => Address fields
  | None => OverWater
  end.

(** [speed["speed"]] on what [get_speed] returned: a [str] cannot be
    indexed by a key. *)
Definition speed_of (v : value) : outcome measure :=
  match v with
  | SpeedDict m => Returned m
  | _ => Raised TypeError
  end.

(** ** [get_location] *)

Definition get_location (g : globals) (epoch : string) : outcome value :=
  if no_data g then Returned (Text data_deleted)
  else
    state_vector <- get_state_vector g epoch ;;
    geodata <- convert_j2k_to_geoposition state_vector ;;
    match geodata with
    | Geodata location =>
        let geo := locate location in
        speed <- get_speed g epoch ;;
        m <- speed_of speed ;;
        Returned (LocationData
                    {| ld_EPOCH := epoch; ld_location := location;
                       ld_geo := geo; ld_speed := m |})
    | _ => Returned (Text invalid_epoch_hint)
    end.

(** ** [get_location_now] *)

(** The local variables of the scan.  [seconds_from_now] is unbound
    ([None]) until the first assignment to it. *)
Record scan : Type := {
  prev_diff : Z;
  closest_epoch : string;
  seconds_from_now : option Z
}.

(** The [for i in state_vector_data] loop of [get_location_now]. *)
Fixpoint nearest_loop (time_now : Z) (items : list stateVector) (st : scan)
  : outcome scan :=
  match items with
  | [] => Returned st
  | i :: rest =>
      time_epoch <- or_raise ValueError (epoch_time (EPOCH i)) ;;
      let difference := fabs (time_now - time_epoch) in
      if difference <? prev_diff st then
        nearest_loop time_now rest
          {| prev_diff := difference;
             closest_epoch := EPOCH i;
             seconds_from_now := Some (time_epoch - time_now) |}
      else nearest_loop time_now rest st
  end.

(** Lines 311 to 322: the initialisation from the first record, then the
    loop over all records.  A store without records is the empty dict of
    [delete_all_data], which has no key [0]. *)
Definition find_closest (g : globals) (time_now : Z) : outcome scan :=
  match state_vector_data g with
  | [] => Raised KeyError
  | first :: _ =>
      time_first_epoch <- or_raise ValueError (epoch_time (EPOCH first)) ;;
      nearest_loop time_now (state_vector_data g)
        {| prev_diff := fabs (time_now - time_first_epoch);
           closest_epoch := EPOCH first;
           seconds_from_now := None |}
  end.

(** [time_now] is the reading of the clock,
    [time.mktime(time.gmtime())]. *)
Definition get_location_now (g : globals) (time_now : Z) : outcome value :=
  if no_data g then Returned (Text data_deleted)
  else
    st <- find_closest g time_now ;;
    state_vector <- get_state_vector g (closest_epoch st) ;;
    geodata <- convert_j2k_to_geoposition state_vector ;;
    match geodata with
    | Geodata location =>
        let geo := locate location in
        speed <- get_speed g (closest_epoch st) ;;
        match seconds_from_now st with
        | None => Raised UnboundLocalError
        | Some seconds =>
            m <- speed_of speed ;;
            Returned (LocationNow
                        {| ln_closest_epoch := closest_epoch st;
                           ln_seconds_from_now := seconds;
                           ln_location := location;
                           ln_geo := geo;
                           ln_speed := m |})
        end
    | _ => Returned (Text invalid_epoch_hint)
    end.

End Service.

(* ================================================================== *)
(** * The routes that hand out the document itself *)

(** [get_all_data]: the message on the emptied store, the whole document
    otherwise. *)
Definition get_all_data (g : globals) : string + ndm :=
  match all_data g with
  | None => inl data_deleted
  | Some d => inr d
  end.

(** [get_comment_list]: the subscripts start at [all_data['ndm']] with no
    test of [all_data] before them, so a missing key raises.  The value
    found is returned under the key ["COMMENT"]. *)
Definition get_comment_list (g : globals) : outcome (list string) :=
  match all_data g with
  | None => Raised KeyError
  | Some d =>
      match COMMENT d with
      | [] => Raised KeyError
      | comments => Returned comments
      end
  end.

(* ================================================================== *)
(** * Notions used to state the properties *)

(** [i] is the first record of [items] whose epoch is the string [epoch]. *)
Definition first_match (epoch : string) (items : list stateVector)
    (i : stateVector) : Prop :=
  exists pre post,
    items = (pre ++ i :: post)%list
    /\ EPOCH i = epoch
    /\ Forall (fun j => EPOCH j <> epoch) pre.

(** The text of record [i] reads as the numbers of [sv]. *)
Definition reads_as (i : stateVector) (sv : state_vector) : Prop :=
  EPOCH i = sv_EPOCH sv
  /\ Py.float (text (X i)) = Some (sv_X sv)
  /\ Py.float (text (Y i)) = Some (sv_Y sv)
  /\ Py.float (text (Z_ i)) = Some (sv_Z sv)
  /\ Py.float (text (X_DOT i)) = Some (sv_X_DOT sv)
  /\ Py.float (text (Y_DOT i)) = Some (sv_Y_DOT sv)
  /\ Py.float (text (Z_DOT i)) = Some (sv_Z_DOT sv).

(** The snapshot's slice [[offset, offset + limit)] of epochs. *)
Definition epoch_slice (items : list stateVector) (limit offset : Z) : list string :=
  firstn (Z.to_nat limit) (skipn (Z.to_nat offset) (map EPOCH items)).

(** Record [i] parses to the time [t], in seconds. *)
Definition at_time (utc_offset : struct_time -> Z) (i : stateVector) (t : Z)
  : Prop :=
  epoch_time utc_offset (EPOCH i) = Some t.

(** Every record of [items] has an epoch that [strptime] accepts. *)
Definition all_timed (utc_offset : struct_time -> Z)
    (items : list stateVector) : Prop :=
  Forall (fun i => exists t, at_time utc_offset i t) items.

(** [i], at time [t], is the first record of [items] at the least
    distance from [time_now]: the records before it are strictly farther,
    the records after it are not closer. *)
Definition nearest (utc_offset : struct_time -> Z) (time_now : Z)
    (items : list stateVector) (i : stateVector) (t : Z) : Prop :=
  exists pre post,
    items = (pre ++ i :: post)%list
    /\ at_time utc_offset i t
    /\ (forall j tj, In j pre -> at_time utc_offset j tj ->
          Z.abs (time_now - t) < Z.abs (time_now - tj))
    /\ (forall j tj, In j post -> at_time utc_offset j tj ->
          Z.abs (time_now - t) <= Z.abs (time_now - tj)).

(** The square of the finite float [x] is out of the range of doubles. *)
Definition overflows (x : pyfloat) : Prop :=
  exists r, x = Finite r /\ (overflow_threshold <= r * r)%R.

(** A float that [math.sqrt] accepts. *)
Definition nonnegative (x : pyfloat) : Prop :=
  match x with
  | Finite r => (0 <= r)%R
  | NegInf => False
  | _ => True
  end.

(** The float [x] is a number between [lo] and [hi]. *)
Definition within (lo hi : R) (x : pyfloat) : Prop :=
  match x with
  | Finite r => (lo <= r <= hi)%R
  | NegZero => (lo <= 0 <= hi)%R
  | _ => False
  end.

(** The formulas of the transform as the specification words them, read
    in float arithmetic: a square is a product, the square root is the
    IEEE one. *)
Definition spec_latitude (x y z : pyfloat) : pyfloat :=
  math_degrees (math_atan2 z (root (x * x + y * y))).

Definition spec_longitude (x y : pyfloat) (hour minute : Z) : pyfloat :=
  (math_degrees (math_atan2 y x)
   - (of_int (hour - 12) + true_div minute 60) * true_div 360 24
   + of_int 24)%float.

Definition spec_altitude (x y z : pyfloat) : pyfloat :=
  (root (x * x + y * y + z * z) - of_int 6371)%float.

Definition spec_speed (vx vy vz : pyfloat) : pyfloat :=
  root (vx * vx + vy * vy + vz * vz).

(** ** Sample data *)

Definition km (t : string) : quantity := {| units := "km"; text := t |}.
Definition km_s (t : string) : quantity := {| units := "km/s"; text := t |}.

(** A record on the x axis at the given epoch, moving at 5 km/s. *)
Definition on_x_axis (epoch : string) : stateVector :=
  {| EPOCH := epoch;
     X := km "7000"; Y := km "0"; Z_ := km "0";
     X_DOT := km_s "3"; Y_DOT := km_s "4"; Z_DOT := km_s "0" |}.

Definition at_noon : stateVector := on_x_axis "2023-058T12:00:00.000Z".
Definition at_midnight : stateVector := on_x_axis "2023-058T00:00:00.000Z".

(** 2023-058T12:00:00 in seconds since 1970 (UTC). *)
Definition noon : Z := 1677499200.

(** The zone of a host that keeps UTC. *)
Definition utc (t : struct_time) : Z := 0.

(** Records 10 s before, 2 s after and 100 s after [noon]. *)
Definition before_noon : stateVector := on_x_axis "2023-058T11:59:50.000Z".
Definition after_noon : stateVector := on_x_axis "2023-058T12:00:02.000Z".
Definition later : stateVector := on_x_axis "2023-058T12:01:40.000Z".

(** A second record with the epoch of [at_noon] and another position. *)
Definition noon_again : stateVector :=
  {| EPOCH := EPOCH at_noon;
     X := km "1"; Y := km "2"; Z_ := km "3";
     X_DOT := km_s "0"; Y_DOT := km_s "0"; Z_DOT := km_s "0" |}.

Definition loaded (items : list stateVector) : globals :=
  fst (retrieve_data_again {| COMMENT := []; data_stateVector := items |}
         {| all_data := None; state_vector_data := [] |}).

Definition three_records : globals := loaded [before_noon; after_noon; later].
Definition one_record : globals := loaded [at_noon].
Definition deleted : globals := fst (delete_all_data three_records).

(** The dict of [at_noon] and [at_midnight] after [float]. *)
Definition x_axis_vector (epoch : string) : state_vector :=
  {| sv_EPOCH := epoch; sv_X := 7000; sv_Y := 0; sv_Z := 0;
     sv_X_DOT := 3; sv_Y_DOT := 4; sv_Z_DOT := 0 |}.

(** A geocoder that knows no place. *)
Definition over_water (lat lon : pyfloat) : option (list (string * string)) :=
  None.



(** The state left by a delete followed by a reload whose document has no
    state vector: the document is held, the records are gone. *)
Definition half_loaded : globals :=
  fst (retrieve_data_again {| COMMENT := ["reply"]; data_stateVector := [] |}
         deleted).

(** A record whose position text is not a number. *)
Definition no_position : stateVector :=
  {| EPOCH := "2023-058T12:04:00.000Z";
     X := km "n/a"; Y := km "0"; Z_ := km "0";
     X_DOT := km_s "3"; Y_DOT := km_s "4"; Z_DOT := km_s "0" |}.

(** A record whose epoch is not a timestamp. *)
Definition no_epoch : stateVector := on_x_axis "unknown".

(** The six texts of a record that [get_state_vector] reads. *)
Definition numbers_of (i : stateVector) : list quantity :=
  [X i; Y i; Z_ i; X_DOT i; Y_DOT i; Z_DOT i].

(** No square that the transform or the speed takes of a number of [sv]
    is out of range. *)
Definition squares_in_range (sv : state_vector) : Prop :=
  ~ overflows (sv_X sv) /\ ~ overflows (sv_Y sv) /\ ~ overflows (sv_Z sv)
  /\ ~ overflows (sv_X_DOT sv) /\ ~ overflows (sv_Y_DOT sv)
  /\ ~ overflows (sv_Z_DOT sv).

(** The texts of record [i] can all be read: its six numbers by [float],
    with squares in range, and the hour and minute characters of its
    epoch by [int]. *)
Definition readable (i : stateVector) : Prop :=
  exists sv hrs mins,
    reads_as i sv
    /\ squares_in_range sv
    /\ Py.int (slice 9 11 (EPOCH i)) = Some hrs
    /\ Py.int (slice 12 14 (EPOCH i)) = Some mins.

(** The speed computed from a dict of [get_state_vector]. *)
Definition speed_of_vector (sv : state_vector) : measure :=
  {| m_value := spec_speed (sv_X_DOT sv) (sv_Y_DOT sv) (sv_Z_DOT sv);
     m_units := "km/s" |}.

(** The dict that the transform returns for [sv] at the given hour and
    minute when no square overflows. *)
Definition geodata_of_vector (sv : state_vector) (hour minute : Z) : geodata :=
  {| latitude := spec_latitude (sv_X sv) (sv_Y sv) (sv_Z sv);
     longitude := spec_longitude (sv_X sv) (sv_Y sv) hour minute;
     altitude := {| m_value := spec_altitude (sv_X sv) (sv_Y sv) (sv_Z sv);
                    m_units := "km" |} |}.

(* ================================================================== *)
(** * Properties of the paginated listing *)

(** Settles the [if a <? b] guards of a route from the arithmetic facts in
    the context. *)
Ltac pass_guards :=
  repeat match goal with
         | |- context [if ?a <? ?b then _ else _] =>
             destruct (Z.ltb_spec a b); [lia|]
         end.

Lemma epochs_loop_slice (limit offset : Z) (items : list stateVector) :
  forall (offset_count epoch_count : Z) (acc : list string),
    offset_count <= offset ->
    epoch_count <= limit ->
    epochs_loop limit offset items offset_count epoch_count acc
    = (acc ++ epoch_slice items (limit - epoch_count) (offset - offset_count))%list.
Proof.
  unfold epoch_slice.
  induction items as [|item rest IH]; intros oc ec acc Hoc Hec; simpl.
  - now rewrite skipn_nil, firstn_nil, app_nil_r.
  - destruct (oc <? offset) eqn:Hlt.
    + apply Z.ltb_lt in Hlt.
      rewrite IH by lia.
      replace (Z.to_nat (offset - oc)) with (S (Z.to_nat (offset - (oc + 1)))) by lia.
      reflexivity.
    + apply Z.ltb_ge in Hlt.
      replace (offset - oc) with 0 by lia. simpl.
      destruct (ec =? limit) eqn:Heq.
      * apply Z.eqb_eq in Heq. subst ec.
        rewrite Z.sub_diag. simpl. now rewrite app_nil_r.
      * apply Z.eqb_neq in Heq.
        rewrite IH by lia.
        replace (offset - oc) with 0 by lia. simpl.
        replace (Z.to_nat (limit - ec)) with (S (Z.to_nat (limit - (ec + 1)))) by lia.
        simpl. now rewrite <- app_assoc.
Qed.

Lemma epoch_slice_length (items : list stateVector) (limit offset : Z) :
  0 <= limit -> 0 <= offset ->
  Z.of_nat (List.length (epoch_slice items limit offset))
  = Z.max 0 (Z.min limit (Z.of_nat (List.length items) - offset)).
Proof.
  intros Hl Ho. unfold epoch_slice.
  rewrite length_firstn, length_skipn, length_map. lia.
Qed.

(** The [k]-th epoch of the slice is the epoch of record [offset + k]. *)
Lemma epoch_slice_nth (items : list stateVector) (limit offset : Z) (k : nat) :
  0 <= offset -> (k < Z.to_nat limit)%nat ->
  nth_error (epoch_slice items limit offset) k
  = option_map EPOCH (nth_error items (Z.to_nat offset + k)).
Proof.
  intros Ho Hk. unfold epoch_slice.
  rewrite nth_error_firstn.
  destruct (Nat.ltb_spec k (Z.to_nat limit)); [|lia].
  now rewrite nth_error_skipn, nth_error_map.
Qed.

(** C2: on a store that holds data, a listing with non-negative [limit]
    and [offset < total] returns the epochs of the snapshot's slice
    [[offset, offset + limit)], in order; they are exactly
    [min limit (total - offset)] many, so a limit past the end yields all
    remaining epochs and no error. *)
Theorem list_epochs_is_slice (g : globals) (limit_arg offset_arg : option string)
    (limit offset : Z) :
  no_data g = false ->
  int_arg limit_arg (Z.of_nat (len g)) = Some limit ->
  int_arg offset_arg 0 = Some offset ->
  0 <= limit ->
  0 <= offset < Z.of_nat (len g) ->
  exists epochs,
    get_list_of_epochs g limit_arg offset_arg = EpochList epochs
    /\ epochs = epoch_slice (state_vector_data g) limit offset
    /\ Z.of_nat (List.length epochs) = Z.min limit (Z.of_nat (len g) - offset)
    /\ forall k, (k < List.length epochs)%nat ->
         nth_error epochs k
         = option_map EPOCH (nth_error (state_vector_data g) (Z.to_nat offset + k)).
Proof.
  intros Hdata Hlimit Hoffset Hl Ho.
  exists (epoch_slice (state_vector_data g) limit offset).
  assert (Hlen : Z.of_nat (List.length (epoch_slice (state_vector_data g) limit offset))
                 = Z.min limit (Z.of_nat (len g) - offset)).
  { rewrite epoch_slice_length by lia. unfold len in *. lia. }
  repeat split.
  - unfold get_list_of_epochs. rewrite Hdata, Hlimit, Hoffset. pass_guards.
    destruct (offset >=? Z.of_nat (len g)) eqn:E; [apply Z.geb_le in E; lia|].
    rewrite epochs_loop_slice by lia.
    now rewrite !Z.sub_0_r.
  - exact Hlen.
  - intros k Hk. apply epoch_slice_nth; lia.
Qed.

(** A listing of two epochs from position one of a store of three. *)
Lemma list_epochs_is_slice_witness :
  exists epochs,
    get_list_of_epochs three_records (Some "2") (Some "1") = EpochList epochs
    /\ epochs = epoch_slice (state_vector_data three_records) 2 1
    /\ Z.of_nat (List.length epochs) = Z.min 2 (Z.of_nat (len three_records) - 1)
    /\ forall k, (k < List.length epochs)%nat ->
         nth_error epochs k
         = option_map EPOCH (nth_error (state_vector_data three_records) (Z.to_nat 1 + k)).
Proof.
  apply (list_epochs_is_slice three_records (Some "2") (Some "1") 2 1).
  - reflexivity.
  - reflexivity.
  - reflexivity.
  - lia.
  - simpl. lia.
Defined.

(** C3 as stated fails on the emptied store: total is 0 and offset 0 is
    not below it, yet the answer is the no-data message, which is not the
    offset message.  It also fails when the limit is refused: the limit is
    examined before the offset. *)
Lemma offset_check_counterexample :
  (len deleted = 0%nat
   /\ get_list_of_epochs deleted None (Some "0") = Text data_deleted
   /\ Text data_deleted <> Text (offset_out_of_range (len deleted)))
  /\ (len three_records = 3%nat
      /\ get_list_of_epochs three_records (Some "-1") (Some "3") = Text negative_limit
      /\ Text negative_limit <> Text (offset_out_of_range (len three_records))).
Proof.
  split; (split; [reflexivity|]; split; [reflexivity|]);
    vm_compute; discriminate.
Qed.

(** C3, amended: on a store that holds data, with a valid limit, every
    non-negative offset that is not below the number of records is
    answered by the offset message, which quotes that number. *)
Theorem offset_out_of_range_reported (g : globals)
    (limit_arg offset_arg : option string) (limit offset : Z) :
  no_data g = false ->
  int_arg limit_arg (Z.of_nat (len g)) = Some limit ->
  0 <= limit ->
  int_arg offset_arg 0 = Some offset ->
  Z.of_nat (len g) <= offset ->
  get_list_of_epochs g limit_arg offset_arg = Text (offset_out_of_range (len g)).
Proof.
  intros Hdata Hlimit Hl Hoffset Ho.
  unfold get_list_of_epochs. rewrite Hdata, Hlimit, Hoffset. pass_guards.
  destruct (offset >=? Z.of_nat (len g)) eqn:E; [reflexivity|].
  rewrite Z.geb_leb in E. apply Z.leb_gt in E. lia.
Qed.

(** Offset three on a store of three records. *)
Lemma offset_out_of_range_reported_witness :
  get_list_of_epochs three_records None (Some "3")
  = Text (offset_out_of_range (len three_records)).
Proof.
  apply (offset_out_of_range_reported three_records None (Some "3") 3 3).
  - reflexivity.
  - reflexivity.
  - lia.
  - reflexivity.
  - simpl. lia.
Defined.

(* ================================================================== *)
(** * Float arithmetic on small numbers *)

Lemma overflow_threshold_pos : (1000000000000 < overflow_threshold)%R.
Proof. unfold overflow_threshold. apply IZR_lt. reflexivity. Qed.

Lemma round_small (r : R) :
  (Rabs r <= 1000000000000)%R -> round r = Finite r.
Proof.
  intros H. unfold round. pose proof overflow_threshold_pos.
  destruct (Rlt_dec (Rabs r) overflow_threshold); [reflexivity|lra].
Qed.

Lemma fadd_small (a b : R) :
  (Rabs (a + b) <= 1000000000000)%R ->
  (Finite a + Finite b)%float = Finite (a + b).
Proof. intros H. cbn [fadd]. now apply round_small. Qed.

Lemma fsub_small (a b : R) :
  (Rabs (a - b) <= 1000000000000)%R ->
  (Finite a - Finite b)%float = Finite (a - b).
Proof.
  intros H. unfold fsub, fneg. destruct (Req_dec_T b 0) as [->|Hb]; cbn [fadd].
  - f_equal. lra.
  - now apply round_small.
Qed.

Lemma fmul_small (a b : R) :
  (0 < b)%R ->
  (Rabs (a * b) <= 1000000000000)%R ->
  (Finite a * Finite b)%float = Finite (a * b).
Proof.
  intros Hb H. unfold fmul. cbn [is_inf is_zero sign_bit andb orb].
  destruct (Req_dec_T b 0) as [->|_]; [lra|].
  destruct (Rlt_dec b 0) as [Hb'|_]; [lra|].
  destruct (Req_dec_T a 0) as [Ha|Ha]; cbn [andb orb].
  - destruct (Rlt_dec a 0) as [Ha'|_]; [lra|].
    cbn [xorb]. subst a. f_equal. ring.
  - now apply round_small.
Qed.

Lemma pow2_small (r : R) :
  (Rabs r <= 1000000)%R -> pow2 (Finite r) = Returned (Finite (r * r)).
Proof.
  intros H. cbn [pow2]. pose proof overflow_threshold_pos.
  destruct (Rlt_dec (r * r) overflow_threshold) as [_|Hn]; [reflexivity|].
  exfalso. apply Hn.
  assert (r * r <= 1000000 * 1000000)%R.
  { rewrite <- (Rabs_right (r * r)) by nra. rewrite Rabs_mult.
    pose proof (Rabs_pos r). nra. }
  lra.
Qed.

Lemma math_sqrt_finite (r : R) :
  (0 <= r)%R -> math_sqrt (Finite r) = Returned (Finite (sqrt r)).
Proof.
  intros H. cbn [math_sqrt root].
  now destruct (Rlt_dec r 0); [lra|].
Qed.

Lemma math_atan2_on_x_axis (x : R) :
  (0 < x)%R -> math_atan2 (Finite 0) (Finite x) = Finite 0.
Proof.
  intros H. cbn [math_atan2 is_zero sign_bit].
  destruct (Req_dec_T 0 0) as [_|Hn]; [|now destruct Hn].
  destruct (Rlt_dec x 0); [lra|]. now destruct (Rlt_dec 0 0); [lra|].
Qed.

Lemma math_degrees_0 : math_degrees (Finite 0) = Finite 0.
Proof.
  unfold math_degrees. rewrite fmul_small.
  - f_equal. ring.
  - apply Rdiv_lt_0_compat; [lra|apply PI_RGT_0].
  - rewrite Rmult_0_l, Rabs_R0. lra.
Qed.

(** Settles [Rabs e <= bound] for an expression between known bounds. *)
Ltac small := apply Rabs_le; split; (lra || nra).

(* ================================================================== *)
(** * Properties of the store *)


(** A document with state vectors replaces both globals. *)
Lemma retrieve_data_again_installs (fetched : ndm) (g : globals) :
  data_stateVector fetched <> [] ->
  no_data (fst (retrieve_data_again fetched g)) = false
  /\ state_vector_data (fst (retrieve_data_again fetched g))
     = data_stateVector fetched
  /\ snd (retrieve_data_again fetched g) = Returned ("Restored ISS Data" ++ nl).
Proof.
  intros H. unfold retrieve_data_again.
  destruct (data_stateVector fetched); [contradiction|]. repeat split.
Qed.

(** A document without state vectors replaces [all_data] only. *)
Lemma retrieve_data_again_fails (fetched : ndm) (g : globals) :
  data_stateVector fetched = [] ->
  all_data (fst (retrieve_data_again fetched g)) = Some fetched
  /\ state_vector_data (fst (retrieve_data_again fetched g))
     = state_vector_data g
  /\ snd (retrieve_data_again fetched g) = Raised KeyError.
Proof.
  intros H. unfold retrieve_data_again. rewrite H. repeat split.
Qed.

Lemma state_vector_loop_found (epoch : string) (i : stateVector)
    (sv : state_vector) (post : list stateVector) :
  forall pre,
    Forall (fun j => EPOCH j <> epoch) pre ->
    EPOCH i = epoch ->
    reads_as i sv ->
    state_vector_loop epoch (pre ++ i :: post) = Returned (StateVectorDict sv).
Proof.
  intros pre Hpre Hi (He & Hx & Hy & Hz & Hvx & Hvy & Hvz).
  induction Hpre as [|j pre Hj _ IH]; simpl.
  - rewrite Hi, String.eqb_refl. unfold float_of.
    rewrite Hx, Hy, Hz, Hvx, Hvy, Hvz. simpl.
    rewrite <- Hi, He. now destruct sv.
  - apply String.eqb_neq in Hj. now rewrite Hj.
Qed.

Lemma state_vector_loop_absent (epoch : string) (items : list stateVector) :
  Forall (fun j => EPOCH j <> epoch) items ->
  state_vector_loop epoch items = Returned (Text epoch_not_found).
Proof.
  induction 1 as [|j rest Hj _ IH]; simpl; [reflexivity|].
  apply String.eqb_neq in Hj. now rewrite Hj.
Qed.

(** C8: on a store that holds data, a lookup by epoch returns the first
    record, in snapshot order, whose epoch is that string, with its
    numbers read; after a load the lookup is made in the loaded sequence;
    when no record has that epoch the lookup returns the epoch-not-found
    message, a value no found record can equal. *)
Theorem find_by_epoch_first_match (g : globals) (epoch : string) :
  no_data g = false ->
  (forall i sv,
      first_match epoch (state_vector_data g) i ->
      reads_as i sv ->
      get_state_vector g epoch = Returned (StateVectorDict sv))
  /\ (forall fetched g0 i sv,
         g = fst (retrieve_data_again fetched g0) ->
         first_match epoch (data_stateVector fetched) i ->
         reads_as i sv ->
         get_state_vector g epoch = Returned (StateVectorDict sv))
  /\ (Forall (fun j => EPOCH j <> epoch) (state_vector_data g) ->
      get_state_vector g epoch = Returned (Text epoch_not_found))
  /\ epoch_not_found <> data_deleted.
Proof.
  intros Hdata.
  assert (Hfound : forall i sv,
             first_match epoch (state_vector_data g) i ->
             reads_as i sv ->
             get_state_vector g epoch = Returned (StateVectorDict sv)).
  { intros i sv (pre & post & Hitems & Hi & Hpre) Hsv.
    unfold get_state_vector. rewrite Hdata, Hitems.
    now apply state_vector_loop_found. }
  split; [exact Hfound|]. split; [|split].
  - intros fetched g0 i sv -> Hfirst Hsv. apply Hfound with i; [|exact Hsv].
    assert (Hne : data_stateVector fetched <> []).
    { destruct Hfirst as (pre & post & -> & _). now destruct pre. }
    now rewrite (proj1 (proj2 (retrieve_data_again_installs fetched g0 Hne))).
  - intros Habsent. unfold get_state_vector. rewrite Hdata.
    now apply state_vector_loop_absent.
  - discriminate.
Qed.

Lemma float_integer (s : string) (m : Z) :
  Py.float_numeral s
  = Some (NumDecimal false {| mantissa := m; exponent := 0 |}) ->
  0 <= m <= 1000000000000 ->
  Py.float s = Some (Finite (IZR m)).
Proof.
  intros H [Hlo Hhi]. unfold Py.float. rewrite H. cbn [option_map numeral_value mantissa].
  destruct (Z.eqb_spec m 0) as [->|Hm]; [reflexivity|].
  unfold decimal_value. cbn [exponent Z.leb Z.compare Z.pow]. rewrite Z.mul_1_r.
  f_equal. apply round_small. rewrite Rabs_right.
  - now apply IZR_le.
  - apply Rle_ge. now apply IZR_le.
Qed.

Lemma on_x_axis_reads (epoch : string) :
  reads_as (on_x_axis epoch) (x_axis_vector epoch).
Proof.
  unfold reads_as. simpl.
  repeat split; apply float_integer; (vm_compute; reflexivity) || lia.
Qed.

(** With two records of one epoch the first is returned; an epoch that no
    record has is reported as not found. *)
Lemma find_by_epoch_first_match_witness :
  get_state_vector (loaded [before_noon; at_noon; noon_again]) (EPOCH at_noon)
  = Returned (StateVectorDict (x_axis_vector (EPOCH at_noon)))
  /\ get_state_vector (loaded [before_noon; at_noon; noon_again]) "2023-059T00:00:00.000Z"
     = Returned (Text epoch_not_found).
Proof.
  split.
  - apply (proj1 (find_by_epoch_first_match
                    (loaded [before_noon; at_noon; noon_again]) (EPOCH at_noon)
                    eq_refl) at_noon).
    + exists [before_noon], [noon_again]. split; [reflexivity|].
      split; [reflexivity|].
      constructor; [|constructor]. simpl. discriminate.
    + apply on_x_axis_reads.
  - apply (proj1 (proj2 (proj2 (find_by_epoch_first_match
                    (loaded [before_noon; at_noon; noon_again])
                    "2023-059T00:00:00.000Z" eq_refl)))).
    repeat constructor; simpl; discriminate.
Defined.

(* ================================================================== *)
(** * Squares, sums of squares and their roots *)

Lemma pow2_cases (x : pyfloat) :
  (pow2 x = Returned (x * x)%float /\ ~ overflows x)
  \/ (pow2 x = Raised OverflowError /\ overflows x).
Proof.
  destruct x as [r| | | |]; cbn [pow2].
  - destruct (Rlt_dec (r * r) overflow_threshold) as [Hin|Hout].
    + left. split.
      * f_equal. unfold fmul. cbn [is_inf is_zero sign_bit andb orb].
        destruct (Req_dec_T r 0) as [->|Hr]; cbn [orb].
        -- destruct (Rlt_dec 0 0); cbn [xorb andb negb]; f_equal; ring.
        -- unfold round. rewrite Rabs_right by nra.
           now destruct (Rlt_dec (r * r) overflow_threshold).
      * intros (r' & [= <-] & H). lra.
    + right. split; [reflexivity|]. exists r. split; [reflexivity|lra].
  - left. split; [reflexivity|]. intros (r & H & _). discriminate.
  - left. split; [reflexivity|]. intros (r & H & _). discriminate.
  - left. split; [reflexivity|]. intros (r & H & _). discriminate.
  - left. split; [reflexivity|]. intros (r & H & _). discriminate.
Qed.

Lemma pow2_in_range (x : pyfloat) :
  ~ overflows x -> pow2 x = Returned (x * x)%float.
Proof. intros H. now destruct (pow2_cases x) as [[Hp _]|[_ Ho]]. Qed.

Lemma pow2_overflows (x : pyfloat) :
  overflows x -> pow2 x = Raised OverflowError.
Proof. intros H. now destruct (pow2_cases x) as [[_ Hn]|[Hp _]]. Qed.

Lemma square_nonnegative (x : pyfloat) : nonnegative (x * x)%float.
Proof.
  destruct x as [r| | | |]; unfold fmul;
    cbn [is_inf is_zero sign_bit andb orb xorb nonnegative]; trivial.
  - destruct (Req_dec_T r 0) as [->|Hr]; cbn [orb].
    + destruct (Rlt_dec 0 0); cbn [xorb andb negb nonnegative]; lra.
    + unfold round. destruct (Rlt_dec (Rabs (r * r)) overflow_threshold).
      * cbn. nra.
      * destruct (Rlt_dec 0 (r * r)); cbn; [trivial|nra].
  - lra.
Qed.

Lemma fadd_nonnegative (x y : pyfloat) :
  nonnegative x -> nonnegative y -> nonnegative (x + y)%float.
Proof.
  pose proof overflow_threshold_pos as Ht.
  destruct x as [a| | | |], y as [b| | | |]; cbn [fadd nonnegative];
    trivial; try contradiction.
  intros Ha Hb. unfold round.
  destruct (Rlt_dec (Rabs (a + b)) overflow_threshold) as [_|Hout].
  - cbn. lra.
  - destruct (Rlt_dec 0 (a + b)) as [_|Hn]; cbn; [trivial|].
    apply Hout. rewrite Rabs_right by lra. lra.
Qed.

Lemma math_sqrt_nonnegative (x : pyfloat) :
  nonnegative x -> math_sqrt x = Returned (root x).
Proof.
  destruct x as [r| | | |]; cbn [nonnegative math_sqrt]; trivial;
    [|contradiction].
  intros H. now destruct (Rlt_dec r 0); [lra|].
Qed.

Lemma small_does_not_overflow (r : R) :
  (Rabs r <= 1000000)%R -> ~ overflows (Finite r).
Proof.
  intros H (r' & [= <-] & Hout). pose proof overflow_threshold_pos.
  assert (r * r <= 1000000 * 1000000)%R.
  { rewrite <- (Rabs_right (r * r)) by nra. rewrite Rabs_mult.
    pose proof (Rabs_pos r). nra. }
  lra.
Qed.

(** The transform of a dict with squares in range. *)
Lemma convert_in_range (sv : state_vector) (hrs mins : Z) :
  Py.int (slice 9 11 (sv_EPOCH sv)) = Some hrs ->
  Py.int (slice 12 14 (sv_EPOCH sv)) = Some mins ->
  ~ overflows (sv_X sv) -> ~ overflows (sv_Y sv) -> ~ overflows (sv_Z sv) ->
  convert_j2k_to_geoposition (StateVectorDict sv)
  = Returned (Geodata (geodata_of_vector sv hrs mins)).
Proof.
  intros Hh Hm Hx Hy Hz. unfold convert_j2k_to_geoposition.
  rewrite Hh, Hm. cbn [or_raise bind].
  rewrite (pow2_in_range _ Hx), (pow2_in_range _ Hy), (pow2_in_range _ Hz).
  cbn [bind].
  rewrite math_sqrt_nonnegative
    by (apply fadd_nonnegative; apply square_nonnegative).
  cbn [bind].
  rewrite math_sqrt_nonnegative
    by (repeat apply fadd_nonnegative; apply square_nonnegative).
  reflexivity.
Qed.

(** The transform of a dict with a square out of range. *)
Lemma convert_overflows (sv : state_vector) (hrs mins : Z) :
  Py.int (slice 9 11 (sv_EPOCH sv)) = Some hrs ->
  Py.int (slice 12 14 (sv_EPOCH sv)) = Some mins ->
  overflows (sv_X sv) \/ overflows (sv_Y sv) \/ overflows (sv_Z sv) ->
  convert_j2k_to_geoposition (StateVectorDict sv) = Raised OverflowError.
Proof.
  intros Hh Hm Hout. unfold convert_j2k_to_geoposition.
  rewrite Hh, Hm. cbn [or_raise bind].
  destruct (pow2_cases (sv_X sv)) as [[-> Hx]|[-> _]]; [|reflexivity].
  cbn [bind].
  destruct (pow2_cases (sv_Y sv)) as [[-> Hy]|[-> _]]; [|reflexivity].
  cbn [bind].
  rewrite math_sqrt_nonnegative
    by (apply fadd_nonnegative; apply square_nonnegative).
  cbn [bind].
  destruct (pow2_cases (sv_Z sv)) as [[-> Hz]|[-> _]]; [|reflexivity].
  tauto.
Qed.

(** The speed loop on the first matching record. *)
Lemma speed_loop_found (epoch : string) (i : stateVector)
    (sv : state_vector) (post : list stateVector) :
  forall pre,
    Forall (fun j => EPOCH j <> epoch) pre ->
    EPOCH i = epoch ->
    reads_as i sv ->
    ~ overflows (sv_X_DOT sv) -> ~ overflows (sv_Y_DOT sv) ->
    ~ overflows (sv_Z_DOT sv) ->
    speed_loop epoch (pre ++ i :: post)
    = Returned (SpeedDict (speed_of_vector sv)).
Proof.
  intros pre Hpre Hi (He & Hx & Hy & Hz & Hvx & Hvy & Hvz) Hox Hoy Hoz.
  induction Hpre as [|j pre Hj _ IH]; simpl.
  - rewrite Hi, String.eqb_refl. unfold float_of.
    rewrite Hvx, Hvy, Hvz. cbn [or_raise bind].
    rewrite (pow2_in_range _ Hox), (pow2_in_range _ Hoy), (pow2_in_range _ Hoz).
    cbn [bind].
    rewrite math_sqrt_nonnegative
      by (repeat apply fadd_nonnegative; apply square_nonnegative).
    reflexivity.
  - apply String.eqb_neq in Hj. now rewrite Hj.
Qed.

Lemma speed_loop_overflows (epoch : string) (i : stateVector)
    (sv : state_vector) (post : list stateVector) :
  forall pre,
    Forall (fun j => EPOCH j <> epoch) pre ->
    EPOCH i = epoch ->
    reads_as i sv ->
    overflows (sv_X_DOT sv) \/ overflows (sv_Y_DOT sv)
    \/ overflows (sv_Z_DOT sv) ->
    speed_loop epoch (pre ++ i :: post) = Raised OverflowError.
Proof.
  intros pre Hpre Hi (He & Hx & Hy & Hz & Hvx & Hvy & Hvz) Hout.
  induction Hpre as [|j pre Hj _ IH]; simpl.
  - rewrite Hi, String.eqb_refl. unfold float_of.
    rewrite Hvx, Hvy, Hvz. cbn [or_raise bind].
    destruct (pow2_cases (sv_X_DOT sv)) as [[-> Hox]|[-> _]]; [|reflexivity].
    cbn [bind].
    destruct (pow2_cases (sv_Y_DOT sv)) as [[-> Hoy]|[-> _]]; [|reflexivity].
    cbn [bind].
    destruct (pow2_cases (sv_Z_DOT sv)) as [[-> Hoz]|[-> _]]; [|reflexivity].
    tauto.
  - apply String.eqb_neq in Hj. now rewrite Hj.
Qed.

Lemma square_small (r : R) :
  (Rabs r <= 1000000)%R -> (Finite r * Finite r)%float = Finite (r * r).
Proof.
  intros H. pose proof (pow2_small r H) as Hs.
  rewrite (pow2_in_range _ (small_does_not_overflow r H)) in Hs.
  now injection Hs.
Qed.

Lemma x_axis_squares_in_range (epoch : string) :
  squares_in_range (x_axis_vector epoch).
Proof.
  unfold squares_in_range. cbn [x_axis_vector sv_X sv_Y sv_Z sv_X_DOT sv_Y_DOT sv_Z_DOT].
  repeat split; apply small_does_not_overflow; small.
Qed.

(* ================================================================== *)
(** * The store without records *)




(* ================================================================== *)
(** * Properties of the coordinate transform *)

Lemma sqrt_x_axis (x : R) : (0 <= x)%R -> sqrt (x * x + 0 * 0) = x.
Proof.
  intros Hx. replace (x * x + 0 * 0)%R with (x * x)%R by ring.
  now apply sqrt_square.
Qed.

Lemma sqrt_x_axis3 (x : R) : (0 <= x)%R -> sqrt (x * x + 0 * 0 + 0 * 0) = x.
Proof.
  intros Hx. replace (x * x + 0 * 0 + 0 * 0)%R with (x * x)%R by ring.
  now apply sqrt_square.
Qed.

(** The transform of a point on the positive x axis. *)
Lemma geoposition_on_x_axis (sv : state_vector) (x : R) (hrs mins : Z) :
  sv_X sv = Finite x -> (0 < x <= 1000000)%R ->
  sv_Y sv = Finite 0 -> sv_Z sv = Finite 0 ->
  Py.int (slice 9 11 (sv_EPOCH sv)) = Some hrs ->
  Py.int (slice 12 14 (sv_EPOCH sv)) = Some mins ->
  -100 <= hrs <= 100 -> -100 <= mins <= 100 ->
  convert_j2k_to_geoposition (StateVectorDict sv)
  = Returned (Geodata
      {| latitude := 0;
         longitude := 24 - (IZR (hrs - 12) + IZR mins / 60) * 15;
         altitude := {| m_value := x - 6371; m_units := "km" |} |}).
Proof.
  intros Hx Hpos Hy Hz Hh Hm Hhrs Hmins. unfold convert_j2k_to_geoposition.
  rewrite Hh, Hm. cbn [or_raise bind]. rewrite Hx, Hy, Hz.
  assert (Hh' : (-112 <= IZR (hrs - 12) <= 88)%R)
    by (split; apply IZR_le; lia).
  assert (Hm' : (-100 <= IZR mins <= 100)%R)
    by (split; apply IZR_le; lia).
  rewrite (pow2_small x), (pow2_small 0) by small. cbn [bind].
  rewrite (fadd_small (x * x) (0 * 0)) by small.
  rewrite math_sqrt_finite by nra. cbn [bind].
  rewrite (fadd_small (x * x + 0 * 0) (0 * 0)) by small.
  rewrite math_sqrt_finite by nra. cbn [bind].
  rewrite sqrt_x_axis, sqrt_x_axis3 by lra.
  rewrite !math_atan2_on_x_axis by lra. rewrite math_degrees_0.
  unfold of_int, true_div, MEAN_EARTH_RADIUS.
  rewrite (fadd_small (IZR (hrs - 12))) by small.
  rewrite fmul_small by (try small; lra).
  rewrite fsub_small by small.
  rewrite fadd_small by small.
  rewrite fsub_small by small.
  replace (0 - (IZR (hrs - 12) + IZR mins / 60) * (360 / 24) + 24)%R
    with (24 - (IZR (hrs - 12) + IZR mins / 60) * 15)%R by lra.
  reflexivity.
Qed.

(** C4 as stated fails: at hour 12, minute 0 the longitude of the point
    (7000, 0, 0) is 24, not 0. *)
Lemma geodetic_noon_counterexample :
  convert_j2k_to_geoposition (StateVectorDict (x_axis_vector (EPOCH at_noon)))
  = Returned (Geodata
      {| latitude := 0; longitude := 24;
         altitude := {| m_value := 629; m_units := "km" |} |})
  /\ (24 <> 0)%R.
Proof.
  split; [|lra].
  rewrite (geoposition_on_x_axis _ 7000 12 0);
    try reflexivity; try lra; try lia.
  change (12 - 12) with 0.
  replace (24 - (0 + 0 / 60) * 15)%R with 24%R by lra.
  replace (7000 - 6371)%R with 629%R by lra.
  reflexivity.
Qed.

(** C4, amended: for position (7000, 0, 0) and an epoch whose hour is 12
    and whose minute is 0 the transform returns latitude 0, longitude 24
    and altitude 7000 - 6371 = 629 km. *)
Theorem geodetic_noon (sv : state_vector) :
  sv_X sv = 7000%R -> sv_Y sv = 0%R -> sv_Z sv = 0%R ->
  Py.int (slice 9 11 (sv_EPOCH sv)) = Some 12 ->
  Py.int (slice 12 14 (sv_EPOCH sv)) = Some 0 ->
  exists g,
    convert_j2k_to_geoposition (StateVectorDict sv) = Returned (Geodata g)
    /\ latitude g = 0%R
    /\ longitude g = 24%R
    /\ altitude g = {| m_value := 7000 - 6371; m_units := "km" |}
    /\ m_value (altitude g) = 629%R.
Proof.
  intros Hx Hy Hz Hh Hm.
  eexists. split.
  - apply (geoposition_on_x_axis sv 7000 12 0); trivial; try lra; lia.
  - cbn [latitude longitude altitude m_value].
    change (12 - 12) with 0.
    repeat split; f_equal; lra.
Qed.

Lemma geodetic_noon_witness :
  exists g,
    convert_j2k_to_geoposition (StateVectorDict (x_axis_vector (EPOCH at_noon)))
    = Returned (Geodata g)
    /\ latitude g = 0%R
    /\ longitude g = 24%R
    /\ altitude g = {| m_value := 7000 - 6371; m_units := "km" |}
    /\ m_value (altitude g) = 629%R.
Proof.
  apply (geodetic_noon (x_axis_vector (EPOCH at_noon)));
    reflexivity.
Defined.

(** C9: the longitude is not brought into a principal range.  For
    position (7000, 0, 0) at hour 0, minute 0 the transform returns
    0 - (-12) * 15 + 24 = 204 degrees, outside [-180, 180]. *)
Theorem longitude_not_normalised :
  exists g,
    convert_j2k_to_geoposition (StateVectorDict (x_axis_vector (EPOCH at_midnight)))
    = Returned (Geodata g)
    /\ longitude g = 204%R
    /\ ~ within (-180) 180 (longitude g).
Proof.
  eexists. split.
  - apply (geoposition_on_x_axis _ 7000 0 0); try reflexivity; try lra; lia.
  - cbn [longitude]. change (0 - 12) with (-12). split.
    + f_equal. lra.
    + cbn [within]. lra.
Qed.






(** The speed of the sample record is 5 km/s. *)
Lemma spec_speed_3_4_0 : spec_speed 3 4 0 = 5%R.
Proof.
  unfold spec_speed.
  rewrite !square_small by small.
  rewrite !fadd_small by small.
  cbn [root]. destruct (Rlt_dec (3 * 3 + 4 * 4 + 0 * 0) 0) as [H|_]; [lra|].
  f_equal. replace (3 * 3 + 4 * 4 + 0 * 0)%R with (5 * 5)%R by ring.
  apply sqrt_square. lra.
Qed.

(* ================================================================== *)
(** * Properties of the nearest-epoch scan *)

Section NearestScan.

Variable utc_offset : struct_time -> Z.
Variable geocoder_reverse : pyfloat -> pyfloat -> option (list (string * string)).
Variable time_now : Z.

(** The loop either keeps the state it was given, when no record is
    strictly closer than [prev_diff], or ends on the first record at the
    least distance. *)
Lemma nearest_loop_result (items : list stateVector) :
  all_timed utc_offset items ->
  forall st,
  exists st',
    nearest_loop utc_offset time_now items st = Returned st'
    /\ ((st' = st
         /\ forall j tj, In j items -> at_time utc_offset j tj -> prev_diff st <= Z.abs (time_now - tj))
        \/ (exists i t,
              nearest utc_offset time_now items i t
              /\ Z.abs (time_now - t) < prev_diff st
              /\ st' = {| prev_diff := Z.abs (time_now - t);
                          closest_epoch := EPOCH i;
                          seconds_from_now := Some (t - time_now) |})).
Proof.
  induction 1 as [|i rest [t Ht] _ IH]; intros st.
  - exists st. split; [reflexivity|]. left. split; [reflexivity|].
    intros j tj [].
  - cbn [nearest_loop]. unfold at_time in Ht. rewrite Ht.
    cbn [or_raise bind]. unfold fabs.
    destruct (Z.abs (time_now - t) <? prev_diff st) eqn:Hlt.
    + apply Z.ltb_lt in Hlt.
      destruct (IH {| prev_diff := Z.abs (time_now - t); closest_epoch := EPOCH i;
                      seconds_from_now := Some (t - time_now) |})
        as (st' & Hrun & [[Hsame Hrest] | (i' & t' & Hnear & Hcloser & Hst')]).
      * exists st'. split; [exact Hrun|]. right. exists i, t.
        split; [|split; [exact Hlt|exact Hsame]].
        exists [], rest. split; [reflexivity|]. split; [exact Ht|].
        split; [intros j tj []|exact Hrest].
      * exists st'. split; [exact Hrun|]. right. exists i', t'.
        cbn [prev_diff] in Hcloser.
        split; [|split; [lia|exact Hst']].
        destruct Hnear as (pre & post & Hitems & Ht' & Hpre & Hpost).
        exists (i :: pre), post. split; [now rewrite Hitems|].
        split; [exact Ht'|]. split; [|exact Hpost].
        intros j tj [<-|Hin] Hj.
        -- unfold at_time in Hj. rewrite Ht in Hj. injection Hj as <-. exact Hcloser.
        -- now apply Hpre with j.
    + apply Z.ltb_ge in Hlt.
      destruct (IH st)
        as (st' & Hrun & [[Hsame Hrest] | (i' & t' & Hnear & Hcloser & Hst')]).
      * exists st'. split; [exact Hrun|]. left. split; [exact Hsame|].
        intros j tj [<-|Hin] Hj.
        -- unfold at_time in Hj. rewrite Ht in Hj. injection Hj as <-. exact Hlt.
        -- now apply Hrest with j.
      * exists st'. split; [exact Hrun|]. right. exists i', t'.
        split; [|split; [exact Hcloser|exact Hst']].
        destruct Hnear as (pre & post & Hitems & Ht' & Hpre & Hpost).
        exists (i :: pre), post. split; [now rewrite Hitems|].
        split; [exact Ht'|]. split; [|exact Hpost].
        intros j tj [<-|Hin] Hj.
        -- unfold at_time in Hj. rewrite Ht in Hj. injection Hj as <-. lia.
        -- now apply Hpre with j.
Qed.

(** The nearest record is also the first record with its epoch string:
    an earlier record with the same string would be at the same distance. *)
Lemma nearest_first_match (items : list stateVector) (i : stateVector) (t : Z) :
  all_timed utc_offset items ->
  nearest utc_offset time_now items i t ->
  first_match (EPOCH i) items i.
Proof.
  intros Htimed (pre & post & Hitems & Ht & Hpre & _).
  exists pre, post. split; [exact Hitems|]. split; [reflexivity|].
  apply Forall_forall. intros j Hin Heq.
  assert (Hj : at_time utc_offset j t) by (unfold at_time in *; now rewrite Heq).
  specialize (Hpre j t Hin Hj). lia.
Qed.

(** The scan of [get_location_now], from its initialisation: it returns,
    and it ends on the first nearest record; [seconds_from_now] is bound
    exactly when that record is not the first of the store. *)
Lemma find_closest_result (g : globals) :
  state_vector_data g <> [] ->
  all_timed utc_offset (state_vector_data g) ->
  exists i t st,
    find_closest utc_offset g time_now = Returned st
    /\ nearest utc_offset time_now (state_vector_data g) i t
    /\ closest_epoch st = EPOCH i
    /\ prev_diff st = Z.abs (time_now - t)
    /\ (seconds_from_now st = None \/ seconds_from_now st = Some (t - time_now))
    /\ (seconds_from_now st = None <-> hd_error (state_vector_data g) = Some i).
Proof.
  intros Hne Htimed. unfold find_closest.
  destruct (state_vector_data g) as [|first rest] eqn:Hdata; [contradiction|].
  pose proof (Forall_inv Htimed) as [t0 Ht0].
  unfold at_time in Ht0. rewrite Ht0. cbn [or_raise bind]. unfold fabs.
  destruct (nearest_loop_result (first :: rest) Htimed
              {| prev_diff := Z.abs (time_now - t0);
                 closest_epoch := EPOCH first;
                 seconds_from_now := None |})
    as (st & Hrun & [[-> Hall] | (i & t & Hnear & Hcloser & ->)]).
  - exists first, t0. eexists. split; [exact Hrun|].
    cbn [prev_diff closest_epoch seconds_from_now] in *.
    split.
    { exists [], rest. split; [reflexivity|]. split; [exact Ht0|].
      split; [intros j tj []|].
      intros j tj Hin Hj. apply Hall with j; [now right|exact Hj]. }
    repeat split; auto.
  - exists i, t. eexists. split; [exact Hrun|].
    cbn [prev_diff closest_epoch seconds_from_now] in *.
    split; [exact Hnear|]. repeat split; auto; try discriminate.
    cbn [hd_error]. intros [= <-].
    destruct Hnear as (_ & _ & _ & Ht & _).
    unfold at_time in Ht. rewrite Ht0 in Ht. injection Ht as <-. lia.
Qed.

(** What [get_location_now] does once the scan has ended on a record
    whose text is well formed: it raises when [seconds_from_now] was never
    bound and returns the location data otherwise. *)
Lemma get_location_now_result (g : globals) (st : scan) (i : stateVector)
    (sv : state_vector) (hrs mins : Z) :
  no_data g = false ->
  find_closest utc_offset g time_now = Returned st ->
  first_match (closest_epoch st) (state_vector_data g) i ->
  reads_as i sv ->
  squares_in_range sv ->
  Py.int (slice 9 11 (sv_EPOCH sv)) = Some hrs ->
  Py.int (slice 12 14 (sv_EPOCH sv)) = Some mins ->
  exists location speed,
    convert_j2k_to_geoposition (StateVectorDict sv) = Returned (Geodata location)
    /\ get_speed g (closest_epoch st) = Returned (SpeedDict speed)
    /\ get_location_now utc_offset geocoder_reverse g time_now
    = match seconds_from_now st with
      | None => Raised UnboundLocalError
      | Some seconds =>
          Returned (LocationNow
                      {| ln_closest_epoch := closest_epoch st;
                         ln_seconds_from_now := seconds;
                         ln_location := location;
                         ln_geo := locate geocoder_reverse location;
                         ln_speed := speed |})
      end.
Proof.
  intros Hdata Hrun (pre & post & Hitems & Hi & Hpre) Hsv
    (Hx & Hy & Hz & Hvx & Hvy & Hvz) Hh Hm.
  exists (geodata_of_vector sv hrs mins), (speed_of_vector sv).
  split; [|split].
  - now apply convert_in_range.
  - unfold get_speed. rewrite Hdata, Hitems.
    now apply (speed_loop_found (closest_epoch st) i sv post pre Hpre Hi Hsv).
  - unfold get_location_now, get_state_vector, get_speed.
    rewrite Hdata, Hrun, Hitems. cbn [bind].
    rewrite (state_vector_loop_found (closest_epoch st) i sv post pre Hpre Hi Hsv).
    rewrite (speed_loop_found (closest_epoch st) i sv post pre Hpre Hi Hsv
               Hvx Hvy Hvz).
    cbn [bind]. rewrite (convert_in_range sv hrs mins Hh Hm Hx Hy Hz).
    cbn [bind speed_of]. reflexivity.
Qed.

(** When no record is strictly closer to the reference time than the
    first one, the assignment to [seconds_from_now] is never reached and
    building the answer raises [UnboundLocalError]. *)
Lemma unbound_when_first_is_nearest (g : globals) (first : stateVector)
    (rest : list stateVector) (t0 : Z) (sv : state_vector) (hrs mins : Z) :
  no_data g = false ->
  state_vector_data g = first :: rest ->
  all_timed utc_offset (state_vector_data g) ->
  at_time utc_offset first t0 ->
  (forall j tj, In j rest -> at_time utc_offset j tj ->
     Z.abs (time_now - t0) <= Z.abs (time_now - tj)) ->
  reads_as first sv ->
  squares_in_range sv ->
  Py.int (slice 9 11 (sv_EPOCH sv)) = Some hrs ->
  Py.int (slice 12 14 (sv_EPOCH sv)) = Some mins ->
  get_location_now utc_offset geocoder_reverse g time_now = Raised UnboundLocalError.
Proof.
  intros Hdata Hitems Htimed Ht0 Hmin Hsv Hsq Hh Hm.
  destruct (find_closest_result g) as (i & t & st & Hrun & Hnear & Hce & _ & _ & Hnone);
    [rewrite Hitems; discriminate | exact Htimed |].
  assert (Hfirst : i = first).
  { destruct Hnear as (pre & post & Hsplit & Ht & Hpre & _).
    rewrite Hitems in Hsplit. destruct pre as [|p pre].
    - now injection Hsplit.
    - injection Hsplit as -> Hrest.
      assert (Hin : In i rest) by (rewrite Hrest; apply in_elt).
      specialize (Hmin i t Hin Ht).
      specialize (Hpre p t0 (or_introl eq_refl) Ht0). lia. }
  subst i.
  assert (Hunbound : seconds_from_now st = None)
    by (apply Hnone; now rewrite Hitems).
  destruct (get_location_now_result g st first sv hrs mins)
    as (loc & sp & _ & _ & Hres); trivial.
  - rewrite Hce. apply nearest_first_match with t; assumption.
  - now rewrite Hres, Hunbound.
Qed.

(** C6: on a non-empty store whose epochs parse, the scan returns and
    ends on a record at the least distance from the reference time, the
    first such record in snapshot order, which is also the record that the
    lookup of its epoch finds; location data returned by the route names
    that record and its signed offset; and with records 10 s before, 2 s
    after and 100 s after the reference time the scan ends on the second,
    2 s ahead. *)
Theorem nearest_epoch_selected (g : globals) :
  state_vector_data g <> [] ->
  all_timed utc_offset (state_vector_data g) ->
  (exists i t st,
      find_closest utc_offset g time_now = Returned st
      /\ nearest utc_offset time_now (state_vector_data g) i t
      /\ closest_epoch st = EPOCH i
      /\ prev_diff st = Z.abs (time_now - t)
      /\ first_match (closest_epoch st) (state_vector_data g) i)
  /\ (forall ln,
         get_location_now utc_offset geocoder_reverse g time_now
         = Returned (LocationNow ln) ->
         exists i t,
           nearest utc_offset time_now (state_vector_data g) i t
           /\ ln_closest_epoch ln = EPOCH i
           /\ ln_seconds_from_now ln = t - time_now)
  /\ (forall r1 r2 r3,
         state_vector_data g = [r1; r2; r3] ->
         at_time utc_offset r1 (time_now - 10) ->
         at_time utc_offset r2 (time_now + 2) ->
         at_time utc_offset r3 (time_now + 100) ->
         find_closest utc_offset g time_now
         = Returned {| prev_diff := 2; closest_epoch := EPOCH r2;
                       seconds_from_now := Some 2 |}).
Proof.
  intros Hne Htimed.
  destruct (find_closest_result g Hne Htimed)
    as (i & t & st & Hrun & Hnear & Hce & Hpd & Hsec & Hnone).
  split; [|split].
  - exists i, t, st. repeat split; trivial.
    rewrite Hce. now apply nearest_first_match with t.
  - intros ln Hret. exists i, t. split; [exact Hnear|].
    unfold get_location_now in Hret. rewrite Hrun in Hret.
    destruct (no_data g); [discriminate|]. cbn [bind] in Hret.
    destruct (get_state_vector g (closest_epoch st)) as [sv|]; [|discriminate].
    cbn [bind] in Hret.
    destruct (convert_j2k_to_geoposition sv) as [[]|]; try discriminate.
    cbn [bind] in Hret.
    destruct (get_speed g (closest_epoch st)) as [sp|]; [|discriminate].
    cbn [bind] in Hret.
    destruct (seconds_from_now st) as [seconds|] eqn:Hs; [|discriminate].
    destruct (speed_of sp); [|discriminate]. cbn [bind] in Hret.
    injection Hret as <-. cbn [ln_closest_epoch ln_seconds_from_now].
    split; [exact Hce|].
    destruct Hsec as [Hsec|Hsec]; congruence.
  - intros r1 r2 r3 Hitems H1 H2 H3.
    unfold find_closest. rewrite Hitems.
    unfold at_time in H1, H2, H3.
    cbn [nearest_loop]. rewrite H1, H2, H3. cbn [or_raise bind prev_diff]. unfold fabs.
    replace (time_now - (time_now - 10)) with 10 by lia.
    replace (time_now - (time_now + 2)) with (-2) by lia.
    replace (time_now - (time_now + 100)) with (-100) by lia.
    replace (time_now + 2 - time_now) with 2 by lia.
    reflexivity.
Qed.

End NearestScan.

(** The sample records parse to their times. *)
Lemma on_x_axis_time (utc_offset : struct_time -> Z) (epoch : string) (tm : struct_time) :
  strptime (drop_last 5 epoch) = Some tm ->
  at_time utc_offset (on_x_axis epoch) (mktime utc_offset tm).
Proof.
  intros H. unfold at_time, epoch_time. cbn [EPOCH on_x_axis]. now rewrite H.
Qed.

Lemma three_records_timed :
  at_time utc before_noon (noon - 10)
  /\ at_time utc after_noon (noon + 2)
  /\ at_time utc later (noon + 100).
Proof. repeat split; vm_compute; reflexivity. Qed.

Lemma three_records_all_timed : all_timed utc (state_vector_data three_records).
Proof. repeat constructor; eexists; vm_compute; reflexivity. Qed.

(** The scan over the three sample records, asked at noon. *)
Lemma three_records_scan :
  find_closest utc three_records noon
  = Returned {| prev_diff := 2; closest_epoch := EPOCH after_noon;
                seconds_from_now := Some 2 |}.
Proof. vm_compute. reflexivity. Qed.

(** Records 10 s before, 2 s after and 100 s after noon, asked at noon:
    the scan ends on the second record, 2 s ahead. *)
Lemma nearest_epoch_selected_witness :
  find_closest utc three_records noon
  = Returned {| prev_diff := 2; closest_epoch := EPOCH after_noon;
                seconds_from_now := Some 2 |}
  /\ exists i t st,
      find_closest utc three_records noon = Returned st
      /\ nearest utc noon (state_vector_data three_records) i t
      /\ closest_epoch st = EPOCH i
      /\ prev_diff st = Z.abs (noon - t)
      /\ first_match (closest_epoch st) (state_vector_data three_records) i.
Proof.
  assert (Hne : state_vector_data three_records <> []) by (simpl; discriminate).
  destruct (nearest_epoch_selected utc over_water noon three_records Hne
              three_records_all_timed) as (Hscan & _ & Hexample).
  split; [|exact Hscan].
  destruct three_records_timed as (H1 & H2 & H3).
  now apply (Hexample before_noon after_noon later).
Defined.

(** The whole route on that store: it returns location data for the
    second record, with [seconds_from_now] equal to 2. *)
Lemma location_now_three_records :
  exists location speed,
    get_location_now utc over_water three_records noon
    = Returned (LocationNow
                  {| ln_closest_epoch := EPOCH after_noon;
                     ln_seconds_from_now := 2;
                     ln_location := location;
                     ln_geo := OverWater;
                     ln_speed := speed |})
    /\ latitude location = 0%R
    /\ longitude location = 24%R.
Proof.
  pose proof three_records_scan as Hrun.
  destruct (get_location_now_result utc over_water noon three_records _ after_noon
              (x_axis_vector (EPOCH after_noon)) 12 0 eq_refl Hrun)
    as (location & speed & Hconv & _ & Hres).
  - exists [before_noon], [later]. split; [reflexivity|]. split; [reflexivity|].
    repeat constructor. simpl. discriminate.
  - apply on_x_axis_reads.
  - apply x_axis_squares_in_range.
  - reflexivity.
  - reflexivity.
  - exists location, speed. split; [exact Hres|].
    rewrite (geoposition_on_x_axis _ 7000 12 0) in Hconv;
      try reflexivity; try lra; try lia.
    injection Hconv as <-. cbn [latitude longitude].
    change (12 - 12) with 0. split; f_equal; lra.
Qed.

(** C1 fails on the code: on a store of one record, whatever the
    reference time, the first record is the nearest, [seconds_from_now]
    is never assigned, and the route raises [UnboundLocalError] instead of
    returning the record with its signed offset. *)
Theorem location_now_unbound_on_single_record (utc_offset : struct_time -> Z)
    (geocoder_reverse : pyfloat -> pyfloat -> option (list (string * string)))
    (time_now : Z) :
  get_location_now utc_offset geocoder_reverse one_record time_now
  = Raised UnboundLocalError.
Proof.
  assert (Htime : exists tm, strptime (drop_last 5 (EPOCH at_noon)) = Some tm)
    by (eexists; vm_compute; reflexivity).
  destruct Htime as [tm Htm].
  apply (unbound_when_first_is_nearest utc_offset geocoder_reverse time_now
           one_record at_noon [] (mktime utc_offset tm)
           (x_axis_vector (EPOCH at_noon)) 12 0).
  - reflexivity.
  - reflexivity.
  - repeat constructor. eexists. now apply on_x_axis_time.
  - now apply on_x_axis_time.
  - intros j tj [].
  - apply on_x_axis_reads.
  - apply x_axis_squares_in_range.
  - reflexivity.
  - reflexivity.
Qed.

(** The same failure with more records: the first of three is the nearest
    when the reference time is 10 s before noon. *)
Lemma location_now_unbound_when_first_nearest :
  get_location_now utc over_water three_records (noon - 10)
  = Raised UnboundLocalError.
Proof.
  apply (unbound_when_first_is_nearest utc over_water (noon - 10)
           three_records before_noon [after_noon; later] (noon - 10)
           (x_axis_vector (EPOCH before_noon)) 11 59).
  - reflexivity.
  - reflexivity.
  - exact three_records_all_timed.
  - vm_compute; reflexivity.
  - intros j tj [<-|[<-|[]]] Hj; vm_compute in Hj; injection Hj as <-; vm_compute;
      discriminate.
  - apply on_x_axis_reads.
  - apply x_axis_squares_in_range.
  - reflexivity.
  - reflexivity.
Qed.

(* ================================================================== *)
(** * Further properties of the listing *)

Lemma firstn_then_next (A : Type) (l : list A) :
  forall a b : nat,
    (firstn a l ++ firstn b (skipn a l))%list = firstn (a + b) l.
Proof.
  induction l as [|x l IH]; intros a b.
  - now rewrite skipn_nil, !firstn_nil.
  - destruct a as [|a]; simpl; [reflexivity|]. now rewrite IH.
Qed.

Lemma get_list_of_epochs_in_range (g : globals)
    (limit_arg offset_arg : option string) (limit offset : Z) :
  no_data g = false ->
  int_arg limit_arg (Z.of_nat (len g)) = Some limit ->
  int_arg offset_arg 0 = Some offset ->
  0 <= limit ->
  0 <= offset < Z.of_nat (len g) ->
  get_list_of_epochs g limit_arg offset_arg
  = EpochList (epoch_slice (state_vector_data g) limit offset).
Proof.
  intros Hdata Hlimit Hoffset Hl Ho.
  unfold get_list_of_epochs. rewrite Hdata, Hlimit, Hoffset. pass_guards.
  destruct (offset >=? Z.of_nat (len g)) eqn:E; [apply Z.geb_le in E; lia|].
  rewrite epochs_loop_slice by lia. now rewrite !Z.sub_0_r.
Qed.

(** X1: on a store that holds data the parameters are examined in a fixed
    order.  A limit that is not an integer is answered with status 400
    whatever the offset; a negative limit with a plain message; only then
    is the offset read, and refused in the same two ways. *)
Theorem list_epochs_parameter_errors (g : globals)
    (limit_arg offset_arg : option string) :
  no_data g = false ->
  (int_arg limit_arg (Z.of_nat (len g)) = None ->
   get_list_of_epochs g limit_arg offset_arg = TextStatus invalid_limit 400)
  /\ (forall limit,
         int_arg limit_arg (Z.of_nat (len g)) = Some limit -> limit < 0 ->
         get_list_of_epochs g limit_arg offset_arg = Text negative_limit)
  /\ (forall limit,
         int_arg limit_arg (Z.of_nat (len g)) = Some limit -> 0 <= limit ->
         int_arg offset_arg 0 = None ->
         get_list_of_epochs g limit_arg offset_arg = TextStatus invalid_offset 400)
  /\ (forall limit offset,
         int_arg limit_arg (Z.of_nat (len g)) = Some limit -> 0 <= limit ->
         int_arg offset_arg 0 = Some offset -> offset < 0 ->
         get_list_of_epochs g limit_arg offset_arg = Text negative_offset).
Proof.
  intros Hdata. unfold get_list_of_epochs. rewrite Hdata.
  split; [|split; [|split]].
  - now intros ->.
  - intros limit -> Hneg. now destruct (Z.ltb_spec limit 0); [|lia].
  - intros limit -> Hpos ->. now pass_guards.
  - intros limit offset -> Hpos -> Hneg. pass_guards.
    now destruct (Z.ltb_spec offset 0); [|lia].
Qed.

(** The four refusals on the store of three records. *)
Lemma list_epochs_parameter_errors_witness :
  get_list_of_epochs three_records (Some "two") (Some "-1")
  = TextStatus invalid_limit 400
  /\ get_list_of_epochs three_records (Some "-2") (Some "x")
     = Text negative_limit
  /\ get_list_of_epochs three_records (Some "2") (Some "1.5")
     = TextStatus invalid_offset 400
  /\ get_list_of_epochs three_records None (Some "-1")
     = Text negative_offset.
Proof.
  split; [|split; [|split]].
  - apply (proj1 (list_epochs_parameter_errors three_records
                    (Some "two") (Some "-1") eq_refl)).
    reflexivity.
  - apply (proj1 (proj2 (list_epochs_parameter_errors three_records
                    (Some "-2") (Some "x") eq_refl)) (-2)).
    + reflexivity.
    + lia.
  - apply (proj1 (proj2 (proj2 (list_epochs_parameter_errors three_records
                    (Some "2") (Some "1.5") eq_refl))) 2).
    + reflexivity.
    + lia.
    + reflexivity.
  - apply (proj2 (proj2 (proj2 (list_epochs_parameter_errors three_records
                    None (Some "-1") eq_refl))) 3 (-1)).
    + reflexivity.
    + lia.
    + reflexivity.
    + lia.
Defined.

(** X2: without a limit the listing runs to the end of the store: from the
    given offset every later epoch is returned, and with no parameter at
    all a non-empty store lists the epoch of every record, in order. *)
Theorem list_epochs_defaults (g : globals) :
  no_data g = false ->
  state_vector_data g <> [] ->
  get_list_of_epochs g None None = EpochList (map EPOCH (state_vector_data g))
  /\ forall offset_arg offset,
       int_arg offset_arg 0 = Some offset ->
       0 <= offset < Z.of_nat (len g) ->
       get_list_of_epochs g None offset_arg
       = EpochList (skipn (Z.to_nat offset) (map EPOCH (state_vector_data g))).
Proof.
  intros Hdata Hne.
  assert (Hfrom : forall offset_arg offset,
             int_arg offset_arg 0 = Some offset ->
             0 <= offset < Z.of_nat (len g) ->
             get_list_of_epochs g None offset_arg
             = EpochList (skipn (Z.to_nat offset) (map EPOCH (state_vector_data g)))).
  { intros offset_arg offset Hoffset Ho.
    rewrite (get_list_of_epochs_in_range g None offset_arg (Z.of_nat (len g)) offset);
      trivial; [|lia].
    unfold epoch_slice. rewrite firstn_all2; [reflexivity|].
    rewrite length_skipn, length_map. unfold len. lia. }
  split; [|exact Hfrom].
  apply (Hfrom None 0); [reflexivity|].
  unfold len. destruct (state_vector_data g); [contradiction|]. simpl. lia.
Qed.

Lemma list_epochs_defaults_witness :
  get_list_of_epochs three_records None None
  = EpochList (map EPOCH (state_vector_data three_records))
  /\ forall offset_arg offset,
       int_arg offset_arg 0 = Some offset ->
       0 <= offset < Z.of_nat (len three_records) ->
       get_list_of_epochs three_records None offset_arg
       = EpochList (skipn (Z.to_nat offset)
                      (map EPOCH (state_vector_data three_records))).
Proof.
  apply (list_epochs_defaults three_records).
  - reflexivity.
  - simpl. discriminate.
Defined.

(** X3: consecutive pages join up.  The page of [a] epochs at offset [o]
    followed by the page of [b] epochs at offset [o + a] is the page of
    [a + b] epochs at offset [o]: nothing is repeated and nothing is
    skipped between two pages. *)
Theorem list_epochs_pages_join (g : globals) (a b o : Z)
    (limit_a limit_b limit_ab offset_o offset_oa : option string) :
  no_data g = false ->
  int_arg limit_a (Z.of_nat (len g)) = Some a ->
  int_arg limit_b (Z.of_nat (len g)) = Some b ->
  int_arg limit_ab (Z.of_nat (len g)) = Some (a + b) ->
  int_arg offset_o 0 = Some o ->
  int_arg offset_oa 0 = Some (o + a) ->
  0 <= a -> 0 <= b -> 0 <= o -> o + a < Z.of_nat (len g) ->
  exists first_page second_page,
    get_list_of_epochs g limit_a offset_o = EpochList first_page
    /\ get_list_of_epochs g limit_b offset_oa = EpochList second_page
    /\ get_list_of_epochs g limit_ab offset_o
       = EpochList (first_page ++ second_page)%list.
Proof.
  intros Hdata Ha Hb Hab Ho Hoa Hpa Hpb Hpo Hin.
  exists (epoch_slice (state_vector_data g) a o),
         (epoch_slice (state_vector_data g) b (o + a)).
  split; [|split].
  - apply get_list_of_epochs_in_range; trivial. lia.
  - apply get_list_of_epochs_in_range; trivial. lia.
  - rewrite (get_list_of_epochs_in_range g limit_ab offset_o (a + b) o);
      trivial; [|lia|lia].
    f_equal. unfold epoch_slice.
    replace (Z.to_nat (o + a)) with (Z.to_nat a + Z.to_nat o)%nat by lia.
    rewrite <- skipn_skipn, firstn_then_next. f_equal. lia.
Qed.

Lemma list_epochs_pages_join_witness :
  exists first_page second_page,
    get_list_of_epochs three_records (Some "1") (Some "0") = EpochList first_page
    /\ get_list_of_epochs three_records (Some "2") (Some "1") = EpochList second_page
    /\ get_list_of_epochs three_records (Some "3") (Some "0")
       = EpochList (first_page ++ second_page)%list.
Proof.
  apply (list_epochs_pages_join three_records 1 2 0
           (Some "1") (Some "2") (Some "3") (Some "0") (Some "1"));
    try reflexivity; simpl; lia.
Defined.

(* ================================================================== *)
(** * Further properties of the lookups by epoch *)

(** Splits the [float_of] reads of a found record into the case where all
    succeed and the cases where one raises. *)
Ltac read_floats :=
  unfold float_of;
  repeat match goal with
         | |- context [Py.float (text ?q)] =>
             let E := fresh "E" in
             destruct (Py.float (text q)) eqn:E; cbn [or_raise bind]
         end.

(** Splits the squares and the root of the speed and of the transform
    into the case where each returns and the cases where one raises. *)
Ltac run_squares :=
  repeat match goal with
         | |- context [Py.bind (pow2 ?x) _] =>
             destruct (pow2 x); cbn [bind]
         | |- context [Py.bind (math_sqrt ?x) _] =>
             destruct (math_sqrt x); cbn [bind]
         end.

Lemma first_match_later (epoch : string) (j i : stateVector)
    (items : list stateVector) :
  EPOCH j <> epoch ->
  first_match epoch items i ->
  first_match epoch (j :: items) i.
Proof.
  intros Hj (pre & post & -> & Hi & Hpre).
  exists (j :: pre), post. split; [reflexivity|]. split; [exact Hi|].
  now constructor.
Qed.

Lemma first_match_head (i : stateVector) (items : list stateVector) :
  first_match (EPOCH i) (i :: items) i.
Proof.
  exists [], items. split; [reflexivity|]. split; [reflexivity|]. constructor.
Qed.

(** What a returned value of the lookup loop says about the store. *)
Lemma state_vector_loop_returned (epoch : string) (items : list stateVector)
    (v : value) :
  state_vector_loop epoch items = Returned v ->
  (v = Text epoch_not_found /\ Forall (fun j => EPOCH j <> epoch) items)
  \/ (exists sv i,
         v = StateVectorDict sv
         /\ first_match epoch items i
         /\ reads_as i sv
         /\ sv_EPOCH sv = epoch).
Proof.
  induction items as [|i rest IH]; simpl.
  - intros H. left. injection H as <-. split; [reflexivity|constructor].
  - destruct (String.eqb_spec (EPOCH i) epoch) as [Heq|Hne]; [|intros H].
    + right. revert H. read_floats; intros H; try discriminate.
      injection H as <-.
      eexists. exists i. split; [reflexivity|].
      split; [rewrite <- Heq; apply first_match_head|].
      split; [|reflexivity].
      unfold reads_as. cbn. rewrite Heq. repeat split; assumption.
    + destruct (IH H) as [[-> Hall] | (sv & i' & -> & Hfirst & Hreads & He)].
      * left. split; [reflexivity|]. now constructor.
      * right. exists sv, i'. split; [reflexivity|].
        split; [now apply first_match_later|]. now split.
Qed.

(** The lookup loop raises only [ValueError], and only on a text of the
    first matching record. *)
Lemma state_vector_loop_raised (epoch : string) (items : list stateVector)
    (e : exn) :
  state_vector_loop epoch items = Raised e ->
  e = ValueError
  /\ exists i q,
       first_match epoch items i
       /\ In q (numbers_of i)
       /\ Py.float (text q) = None.
Proof.
  induction items as [|i rest IH]; simpl; [discriminate|].
  destruct (String.eqb_spec (EPOCH i) epoch) as [Heq|Hne]; [|intros H].
  - rewrite <- Heq.
    read_floats; intros H; try discriminate; injection H as <-;
      (split; [reflexivity|]); exists i;
      match goal with
      | E : Py.float (text ?q) = None |- _ =>
          exists q; split; [apply first_match_head|];
          split; [unfold numbers_of; simpl; tauto|exact E]
      end.
  - destruct (IH H) as (-> & i' & q & Hfirst & Hin & Hq).
    split; [reflexivity|]. exists i', q.
    split; [now apply first_match_later|]. now split.
Qed.

Lemma speed_loop_absent (epoch : string) (items : list stateVector) :
  Forall (fun j => EPOCH j <> epoch) items ->
  speed_loop epoch items = Returned (Text speed_not_found).
Proof.
  induction 1 as [|j rest Hj _ IH]; simpl; [reflexivity|].
  apply String.eqb_neq in Hj. now rewrite Hj.
Qed.

Lemma speed_loop_not_found (epoch : string) (items : list stateVector) :
  speed_loop epoch items = Returned (Text speed_not_found) ->
  Forall (fun j => EPOCH j <> epoch) items.
Proof.
  induction items as [|i rest IH]; simpl; [constructor|].
  destruct (String.eqb_spec (EPOCH i) epoch) as [Heq|Hne].
  - read_floats; run_squares; discriminate.
  - intros H. constructor; [exact Hne|now apply IH].
Qed.

(** The speed loop needs the three velocity texts only. *)
Lemma speed_loop_velocity (epoch : string) (i : stateVector)
    (vx vy vz : pyfloat) (post : list stateVector) :
  forall pre,
    Forall (fun j => EPOCH j <> epoch) pre ->
    EPOCH i = epoch ->
    Py.float (text (X_DOT i)) = Some vx ->
    Py.float (text (Y_DOT i)) = Some vy ->
    Py.float (text (Z_DOT i)) = Some vz ->
    ~ overflows vx -> ~ overflows vy -> ~ overflows vz ->
    speed_loop epoch (pre ++ i :: post)
    = Returned (SpeedDict {| m_value := spec_speed vx vy vz;
                             m_units := "km/s" |}).
Proof.
  intros pre Hpre Hi Hvx Hvy Hvz Hox Hoy Hoz.
  induction Hpre as [|j pre Hj _ IH]; simpl.
  - rewrite Hi, String.eqb_refl. unfold float_of.
    rewrite Hvx, Hvy, Hvz. cbn [or_raise bind].
    rewrite (pow2_in_range _ Hox), (pow2_in_range _ Hoy), (pow2_in_range _ Hoz).
    cbn [bind].
    rewrite math_sqrt_nonnegative
      by (repeat apply fadd_nonnegative; apply square_nonnegative).
    reflexivity.
  - apply String.eqb_neq in Hj. now rewrite Hj.
Qed.

Lemma root_nonnegative (x : pyfloat) : nonnegative x -> nonnegative (root x).
Proof.
  destruct x as [r| | | |]; cbn [nonnegative root]; trivial.
  intros H. destruct (Rlt_dec r 0); cbn [nonnegative]; [trivial|].
  apply sqrt_pos.
Qed.

Lemma state_vector_loop_bad_number (epoch : string) (i : stateVector)
    (q : quantity) (post : list stateVector) :
  forall pre,
    Forall (fun j => EPOCH j <> epoch) pre ->
    EPOCH i = epoch ->
    In q (numbers_of i) ->
    Py.float (text q) = None ->
    state_vector_loop epoch (pre ++ i :: post) = Raised ValueError.
Proof.
  intros pre Hpre Hi Hin Hq.
  induction Hpre as [|j pre Hj _ IH]; simpl.
  - rewrite Hi, String.eqb_refl.
    unfold numbers_of in Hin. simpl in Hin.
    read_floats; try reflexivity.
    repeat (destruct Hin as [<-|Hin]; [congruence|]). contradiction.
  - apply String.eqb_neq in Hj. now rewrite Hj.
Qed.

(** A listing without parameters that returns epochs returns them all. *)
Lemma listing_of_everything (g : globals) (epochs : list string) :
  get_list_of_epochs g None None = EpochList epochs ->
  no_data g = false /\ epochs = map EPOCH (state_vector_data g).
Proof.
  intros H. destruct (no_data g) eqn:Hdata.
  - unfold get_list_of_epochs in H. rewrite Hdata in H. discriminate.
  - split; [reflexivity|].
    destruct (Z.ltb_spec 0 (Z.of_nat (len g))) as [Hpos|Hzero].
    + rewrite (get_list_of_epochs_in_range g None None (Z.of_nat (len g)) 0)
        in H; trivial; try lia.
      injection H as <-. unfold epoch_slice. simpl.
      apply firstn_all2. rewrite length_map. unfold len. lia.
    + unfold get_list_of_epochs in H. rewrite Hdata in H. simpl in H.
      destruct (Z.ltb_spec (Z.of_nat (len g)) 0); [lia|].
      destruct (0 >=? Z.of_nat (len g)) eqn:E; [discriminate|].
      rewrite Z.geb_leb in E. apply Z.leb_gt in E. lia.
Qed.

(** X4: the listing and the lookup agree on which epochs the store has.
    An epoch is in the full listing exactly when looking it up does not
    answer that the epoch is not found. *)
Theorem listed_epochs_are_found (g : globals) (epochs : list string)
    (epoch : string) :
  get_list_of_epochs g None None = EpochList epochs ->
  In epoch epochs
  <-> get_state_vector g epoch <> Returned (Text epoch_not_found).
Proof.
  intros Hlist. apply listing_of_everything in Hlist as [Hdata ->].
  unfold get_state_vector. rewrite Hdata. split.
  - intros Hin Habsent.
    apply state_vector_loop_returned in Habsent
      as [[_ Hall] | (sv & i & Hv & _)]; [|discriminate].
    apply in_map_iff in Hin as (i & Hi & Hin).
    rewrite Forall_forall in Hall. now apply (Hall i Hin).
  - intros Hfound.
    destruct (in_dec string_dec epoch (map EPOCH (state_vector_data g)))
      as [Hin|Hout]; [exact Hin|].
    exfalso. apply Hfound. apply state_vector_loop_absent.
    apply Forall_forall. intros j Hj Heq. apply Hout.
    apply in_map_iff. now exists j.
Qed.

Lemma three_records_listing :
  get_list_of_epochs three_records None None
  = EpochList [EPOCH before_noon; EPOCH after_noon; EPOCH later].
Proof. reflexivity. Qed.

Lemma listed_epochs_are_found_witness :
  In (EPOCH later) [EPOCH before_noon; EPOCH after_noon; EPOCH later]
  <-> get_state_vector three_records (EPOCH later)
      <> Returned (Text epoch_not_found).
Proof.
  apply (listed_epochs_are_found three_records _ (EPOCH later)
           three_records_listing).
Defined.

(** X5: a dict returned by the lookup is never made up: it carries the
    epoch that was asked for and the numbers of the first record of the
    store with that epoch. *)
Theorem state_vector_is_first_match (g : globals) (epoch : string)
    (sv : state_vector) :
  get_state_vector g epoch = Returned (StateVectorDict sv) ->
  sv_EPOCH sv = epoch
  /\ exists i,
       first_match epoch (state_vector_data g) i
       /\ reads_as i sv.
Proof.
  unfold get_state_vector. destruct (no_data g); [discriminate|].
  intros H. apply state_vector_loop_returned in H
    as [[Hv _] | (sv' & i & Hv & Hfirst & Hreads & He)]; [discriminate|].
  injection Hv as <-. split; [exact He|]. now exists i.
Qed.

Lemma three_records_lookup :
  get_state_vector three_records (EPOCH after_noon)
  = Returned (StateVectorDict (x_axis_vector (EPOCH after_noon))).
Proof.
  unfold get_state_vector. cbn [no_data three_records loaded retrieve_data_again
                                fst all_data state_vector_data data_stateVector].
  apply (state_vector_loop_found (EPOCH after_noon) after_noon
           (x_axis_vector (EPOCH after_noon)) [later] [before_noon]).
  - repeat constructor. simpl. discriminate.
  - reflexivity.
  - apply on_x_axis_reads.
Qed.

Lemma state_vector_is_first_match_witness :
  sv_EPOCH (x_axis_vector (EPOCH after_noon)) = EPOCH after_noon
  /\ exists i,
       first_match (EPOCH after_noon) (state_vector_data three_records) i
       /\ reads_as i (x_axis_vector (EPOCH after_noon)).
Proof.
  apply (state_vector_is_first_match three_records (EPOCH after_noon)
           (x_axis_vector (EPOCH after_noon)) three_records_lookup).
Defined.

(** X6: the speed route and the lookup agree.  Whenever the lookup
    returns a dict for an epoch: as long as no square of its velocity is
    out of the range of floats the speed route returns, for the same
    epoch, the norm of the velocity in that dict, in km/s, a value that is
    not below zero; otherwise the speed route raises [OverflowError]. *)
Theorem speed_agrees_with_state_vector (g : globals) (epoch : string)
    (sv : state_vector) :
  get_state_vector g epoch = Returned (StateVectorDict sv) ->
  (~ overflows (sv_X_DOT sv) -> ~ overflows (sv_Y_DOT sv) ->
   ~ overflows (sv_Z_DOT sv) ->
   get_speed g epoch = Returned (SpeedDict (speed_of_vector sv))
   /\ nonnegative (m_value (speed_of_vector sv)))
  /\ (overflows (sv_X_DOT sv) \/ overflows (sv_Y_DOT sv)
      \/ overflows (sv_Z_DOT sv) ->
      get_speed g epoch = Raised OverflowError).
Proof.
  unfold get_state_vector, get_speed. destruct (no_data g); [discriminate|].
  intros H.
  apply state_vector_loop_returned in H
    as [[Hv _] | (sv' & i & Hv & (pre & post & -> & Hi & Hpre) & Hreads & _)];
    [discriminate|].
  injection Hv as <-. split.
  - intros Hx Hy Hz. split; [now apply speed_loop_found|].
    cbn [speed_of_vector m_value]. unfold spec_speed.
    apply root_nonnegative.
    repeat apply fadd_nonnegative; apply square_nonnegative.
  - intros Hout. now apply (speed_loop_overflows epoch i sv post pre).
Qed.

Lemma speed_agrees_with_state_vector_witness :
  get_speed three_records (EPOCH after_noon)
  = Returned (SpeedDict (speed_of_vector (x_axis_vector (EPOCH after_noon))))
  /\ nonnegative (m_value (speed_of_vector (x_axis_vector (EPOCH after_noon)))).
Proof.
  apply (speed_agrees_with_state_vector three_records (EPOCH after_noon)
           (x_axis_vector (EPOCH after_noon)) three_records_lookup);
    apply small_does_not_overflow; small.
Defined.

(** X7: the two scans miss together.  The speed route answers that the
    epoch is not found exactly when the lookup answers that the epoch is
    not found; on the emptied store neither does. *)
Theorem not_found_together (g : globals) (epoch : string) :
  get_speed g epoch = Returned (Text speed_not_found)
  <-> get_state_vector g epoch = Returned (Text epoch_not_found).
Proof.
  unfold get_speed, get_state_vector. destruct (no_data g).
  - split; intros H; exfalso; revert H; vm_compute; discriminate.
  - split; intros H.
    + apply state_vector_loop_absent. now apply speed_loop_not_found.
    + apply speed_loop_absent.
      apply state_vector_loop_returned in H
        as [[_ Hall] | (sv & i & Hv & _)]; [exact Hall|discriminate].
Qed.

(** X8: a text that is not a number.  When one of the six texts of the
    first matching record cannot be read by [float], the lookup raises
    [ValueError]; it raises nothing else and for no other reason.  The
    speed route reads the three velocity texts only, so when only a
    position text is unreadable it still answers: the speed, as long as
    no square of the velocity is out of range. *)
Theorem unreadable_number_raises (g : globals) (epoch : string) (i : stateVector) :
  no_data g = false ->
  first_match epoch (state_vector_data g) i ->
  ((exists q, In q (numbers_of i) /\ Py.float (text q) = None) ->
   get_state_vector g epoch = Raised ValueError)
  /\ (forall e, get_state_vector g epoch = Raised e ->
        e = ValueError
        /\ exists q, In q (numbers_of i) /\ Py.float (text q) = None)
  /\ (forall vx vy vz,
        Py.float (text (X_DOT i)) = Some vx ->
        Py.float (text (Y_DOT i)) = Some vy ->
        Py.float (text (Z_DOT i)) = Some vz ->
        ~ overflows vx -> ~ overflows vy -> ~ overflows vz ->
        get_speed g epoch
        = Returned (SpeedDict {| m_value := spec_speed vx vy vz;
                                 m_units := "km/s" |})).
Proof.
  intros Hdata (pre & post & Hitems & Hi & Hpre).
  unfold get_state_vector, get_speed. rewrite Hdata, Hitems.
  split; [|split].
  - intros (q & Hin & Hq). now apply state_vector_loop_bad_number with q.
  - intros e H. apply state_vector_loop_raised in H
      as (-> & i' & q & (pre' & post' & Hsplit & Hi' & Hpre') & Hin & Hq).
    split; [reflexivity|]. exists q.
    assert (Hsame : i' = i).
    { clear - Hsplit Hi Hi' Hpre Hpre'. revert pre' Hsplit Hpre'.
      induction Hpre as [|j pre Hj _ IH]; intros [|j' pre'] Hsplit Hpre'.
      - simpl in Hsplit. now injection Hsplit.
      - simpl in Hsplit. injection Hsplit as <- _.
        apply Forall_inv in Hpre'. contradiction.
      - simpl in Hsplit. injection Hsplit as -> _. contradiction.
      - simpl in Hsplit. injection Hsplit as _ Hsplit.
        apply (IH pre' Hsplit). now apply Forall_inv_tail in Hpre'. }
    subst i'. now split.
  - intros vx vy vz Hvx Hvy Hvz Hox Hoy Hoz. now apply speed_loop_velocity.
Qed.

(** The record [no_position]: the lookup raises, the speed is that of the
    velocity (3, 4, 0). *)
Lemma unreadable_number_raises_witness :
  get_state_vector (loaded [before_noon; no_position]) (EPOCH no_position)
  = Raised ValueError
  /\ get_speed (loaded [before_noon; no_position]) (EPOCH no_position)
     = Returned (SpeedDict {| m_value := spec_speed 3 4 0;
                              m_units := "km/s" |}).
Proof.
  assert (Hfirst : first_match (EPOCH no_position)
                     (state_vector_data (loaded [before_noon; no_position]))
                     no_position).
  { exists [before_noon], []. split; [reflexivity|]. split; [reflexivity|].
    repeat constructor. simpl. discriminate. }
  destruct (unreadable_number_raises (loaded [before_noon; no_position])
              (EPOCH no_position) no_position eq_refl Hfirst)
    as (Hraise & _ & Hspeed).
  split.
  - apply Hraise. exists (X no_position). split; [now left|reflexivity].
  - apply Hspeed;
      try (apply float_integer; [reflexivity|lia]);
      apply small_does_not_overflow; small.
Defined.

(* ================================================================== *)
(** * Properties of the location routes *)

Lemma on_x_axis_readable (epoch : string) (hrs mins : Z) :
  Py.int (slice 9 11 epoch) = Some hrs ->
  Py.int (slice 12 14 epoch) = Some mins ->
  readable (on_x_axis epoch).
Proof.
  intros Hh Hm. exists (x_axis_vector epoch), hrs, mins.
  split; [apply on_x_axis_reads|].
  split; [apply x_axis_squares_in_range|]. now split.
Qed.

Section LocationRoutes.

Variable utc_offset : struct_time -> Z.
Variable geocoder_reverse : pyfloat -> pyfloat -> option (list (string * string)).
Variable time_now : Z.

(** X11: an epoch that the store does not have.  The transform answers
    "Invalid Epoch" to every value that is not a record dict, without
    raising, and the location route turns the lookup's not-found message
    into its own hint; it does not raise and does not call for the
    speed. *)
Theorem location_of_unknown_epoch (g : globals) (epoch : string) :
  no_data g = false ->
  Forall (fun j => EPOCH j <> epoch) (state_vector_data g) ->
  (forall v, (forall sv, v <> StateVectorDict sv) ->
     convert_j2k_to_geoposition v = Returned (Text invalid_epoch))
  /\ get_state_vector g epoch = Returned (Text epoch_not_found)
  /\ get_location geocoder_reverse g epoch = Returned (Text invalid_epoch_hint).
Proof.
  intros Hdata Habsent.
  assert (Hlookup : get_state_vector g epoch = Returned (Text epoch_not_found)).
  { unfold get_state_vector. rewrite Hdata. now apply state_vector_loop_absent. }
  split; [|split; [exact Hlookup|]].
  - intros v Hv. destruct v; try reflexivity. now destruct (Hv sv).
  - unfold get_location. now rewrite Hdata, Hlookup.
Qed.

(** X12: an epoch that the store has, with readable texts.  As long as
    no square of a number of the record is out of the range of floats,
    the location route returns the asked epoch, the transform of the
    first matching record, what the geocoder says of that latitude and
    longitude (the over-water note when it knows no place) and the speed
    of the same record; otherwise it raises [OverflowError]. *)
Theorem location_of_known_epoch (g : globals) (epoch : string)
    (i : stateVector) (sv : state_vector) (hrs mins : Z) :
  no_data g = false ->
  first_match epoch (state_vector_data g) i ->
  reads_as i sv ->
  Py.int (slice 9 11 epoch) = Some hrs ->
  Py.int (slice 12 14 epoch) = Some mins ->
  (squares_in_range sv ->
   exists location,
     convert_j2k_to_geoposition (StateVectorDict sv) = Returned (Geodata location)
     /\ get_location geocoder_reverse g epoch
        = Returned (LocationData
                      {| ld_EPOCH := epoch;
                         ld_location := location;
                         ld_geo := match geocoder_reverse (latitude location)
                                           (longitude location) with
                                   | Some fields => Address fields
                                   | None => OverWater
                                   end;
                         ld_speed := speed_of_vector sv |}))
  /\ (~ squares_in_range sv ->
      get_location geocoder_reverse g epoch = Raised OverflowError).
Proof.
  intros Hdata (pre & post & Hitems & Hi & Hpre) Hsv Hh Hm.
  assert (He : sv_EPOCH sv = epoch) by (destruct Hsv as [<- _]; exact Hi).
  rewrite <- He in Hh, Hm.
  assert (Hlookup : get_state_vector g epoch = Returned (StateVectorDict sv)).
  { unfold get_state_vector. rewrite Hdata, Hitems.
    apply (state_vector_loop_found epoch i sv post pre Hpre Hi Hsv). }
  split.
  - intros (Hx & Hy & Hz & Hvx & Hvy & Hvz).
    exists (geodata_of_vector sv hrs mins). split.
    + now apply convert_in_range.
    + unfold get_location. rewrite Hdata, Hlookup. cbn [bind].
      rewrite (convert_in_range sv hrs mins Hh Hm Hx Hy Hz). cbn [bind].
      unfold get_speed. rewrite Hdata, Hitems.
      rewrite (speed_loop_found epoch i sv post pre Hpre Hi Hsv Hvx Hvy Hvz).
      reflexivity.
  - intros Hout. unfold get_location. rewrite Hdata, Hlookup. cbn [bind].
    destruct (pow2_cases (sv_X sv)) as [[_ Hx]|[_ Hx]];
      [|now rewrite (convert_overflows sv hrs mins Hh Hm (or_introl Hx))].
    destruct (pow2_cases (sv_Y sv)) as [[_ Hy]|[_ Hy]];
      [|now rewrite (convert_overflows sv hrs mins Hh Hm
                       (or_intror (or_introl Hy)))].
    destruct (pow2_cases (sv_Z sv)) as [[_ Hz]|[_ Hz]];
      [|now rewrite (convert_overflows sv hrs mins Hh Hm
                       (or_intror (or_intror Hz)))].
    rewrite (convert_in_range sv hrs mins Hh Hm Hx Hy Hz). cbn [bind].
    unfold get_speed. rewrite Hdata, Hitems.
    rewrite (speed_loop_overflows epoch i sv post pre Hpre Hi Hsv);
      [reflexivity|].
    destruct (pow2_cases (sv_X_DOT sv)) as [[_ Hvx]|[_ Hvx]]; [|now left].
    destruct (pow2_cases (sv_Y_DOT sv)) as [[_ Hvy]|[_ Hvy]];
      [|now right; left].
    destruct (pow2_cases (sv_Z_DOT sv)) as [[_ Hvz]|[_ Hvz]];
      [|now right; right].
    exfalso. apply Hout. unfold squares_in_range. tauto.
Qed.

(** X13: the two location routes agree.  Whatever the route for the
    current time returns, the route by epoch returns the same location,
    place and speed when asked for the closest epoch. *)
Theorem location_now_agrees_with_location (g : globals) (ln : location_now) :
  get_location_now utc_offset geocoder_reverse g time_now
  = Returned (LocationNow ln) ->
  get_location geocoder_reverse g (ln_closest_epoch ln)
  = Returned (LocationData
                {| ld_EPOCH := ln_closest_epoch ln;
                   ld_location := ln_location ln;
                   ld_geo := ln_geo ln;
                   ld_speed := ln_speed ln |}).
Proof.
  unfold get_location_now, get_location.
  destruct (no_data g); [discriminate|].
  destruct (find_closest utc_offset g time_now) as [st|]; [|discriminate].
  cbn [bind].
  destruct (get_state_vector g (closest_epoch st)) as [v|] eqn:Hv; [|discriminate].
  cbn [bind].
  destruct (convert_j2k_to_geoposition v) as [[]|] eqn:Hc; try discriminate.
  cbn [bind].
  destruct (get_speed g (closest_epoch st)) as [sp|] eqn:Hsp; [|discriminate].
  cbn [bind].
  destruct (seconds_from_now st) as [seconds|]; [|discriminate].
  destruct (speed_of sp) as [m|] eqn:Hm; [|discriminate].
  cbn [bind]. intros [= <-]. cbn [ln_closest_epoch ln_location ln_geo ln_speed].
  rewrite Hv. cbn [bind]. rewrite Hc. cbn [bind].
  rewrite Hsp. cbn [bind]. rewrite Hm. reflexivity.
Qed.

(** A record with an unreadable epoch stops the loop, whatever came
    before it. *)
Lemma nearest_loop_unreadable (items : list stateVector) :
  (exists i, In i items /\ epoch_time utc_offset (EPOCH i) = None) ->
  forall st, nearest_loop utc_offset time_now items st = Raised ValueError.
Proof.
  induction items as [|j rest IH]; intros (i & Hin & Hi) st.
  - destruct Hin.
  - cbn [nearest_loop].
    destruct (epoch_time utc_offset (EPOCH j)) as [t|] eqn:Hj;
      cbn [or_raise bind]; [|reflexivity].
    assert (Hrest : exists i, In i rest /\ epoch_time utc_offset (EPOCH i) = None).
    { destruct Hin as [->|Hin]; [congruence|]. now exists i. }
    destruct (fabs (time_now - t) <? prev_diff st); now apply IH.
Qed.

(** X15: one unreadable epoch anywhere in the store makes the route for
    the current time raise [ValueError]: every record is parsed before
    any is chosen, also the records that would not be the closest. *)
Theorem unreadable_epoch_breaks_now (g : globals) (i : stateVector) :
  no_data g = false ->
  In i (state_vector_data g) ->
  epoch_time utc_offset (EPOCH i) = None ->
  get_location_now utc_offset geocoder_reverse g time_now = Raised ValueError.
Proof.
  intros Hdata Hin Hi. unfold get_location_now, find_closest. rewrite Hdata.
  destruct (state_vector_data g) as [|first rest]; [destruct Hin|].
  destruct (epoch_time utc_offset (EPOCH first)) as [t0|];
    cbn [or_raise bind]; [|reflexivity].
  rewrite nearest_loop_unreadable; [reflexivity|]. now exists i.
Qed.

(** X14: the route for the current time returns when some record is
    strictly closer than the first.  On a store with readable records,
    if a later record is strictly closer to the reference time than the
    first, the route returns location data for a nearest record, with
    the signed number of seconds from the reference time to it. *)
Theorem location_now_returns_when_first_is_not_nearest (g : globals)
    (first : stateVector) (rest : list stateVector) (t0 : Z) :
  no_data g = false ->
  state_vector_data g = first :: rest ->
  all_timed utc_offset (state_vector_data g) ->
  Forall readable (state_vector_data g) ->
  at_time utc_offset first t0 ->
  (exists j tj,
      In j rest /\ at_time utc_offset j tj
      /\ Z.abs (time_now - tj) < Z.abs (time_now - t0)) ->
  exists ln i t,
    get_location_now utc_offset geocoder_reverse g time_now
    = Returned (LocationNow ln)
    /\ nearest utc_offset time_now (state_vector_data g) i t
    /\ ln_closest_epoch ln = EPOCH i
    /\ ln_seconds_from_now ln = t - time_now
    /\ Z.abs (ln_seconds_from_now ln) < Z.abs (time_now - t0).
Proof.
  intros Hdata Hitems Htimed Hreadable Ht0 (j & tj & Hj & Htj & Hcloser).
  destruct (find_closest_result utc_offset time_now g)
    as (i & t & st & Hrun & Hnear & Hce & Hpd & Hsec & Hnone);
    [rewrite Hitems; discriminate | exact Htimed |].
  assert (Hin : In i (state_vector_data g)).
  { destruct Hnear as (pre & post & -> & _). apply in_elt. }
  assert (Hmin : Z.abs (time_now - t) <= Z.abs (time_now - tj)).
  { destruct Hnear as (pre & post & Hsplit & Ht & Hpre & Hpost).
    assert (Hjin : In j (pre ++ i :: post))
      by (rewrite <- Hsplit, Hitems; now right).
    apply in_app_or in Hjin as [Hjin|[<-|Hjin]].
    - specialize (Hpre j tj Hjin Htj). lia.
    - unfold at_time in Ht, Htj. rewrite Ht in Htj. injection Htj as <-. lia.
    - now apply Hpost with j. }
  assert (Hbound : seconds_from_now st = Some (t - time_now)).
  { destruct Hsec as [Hunbound|Hsome]; [|exact Hsome].
    exfalso. apply Hnone in Hunbound. rewrite Hitems in Hunbound.
    injection Hunbound as <-.
    destruct Hnear as (_ & _ & _ & Ht & _).
    unfold at_time in Ht, Ht0. rewrite Ht0 in Ht. injection Ht as <-. lia. }
  rewrite Forall_forall in Hreadable.
  destruct (Hreadable i Hin) as (sv & hrs & mins & Hsv & Hsq & Hh & Hm).
  assert (He : sv_EPOCH sv = EPOCH i) by (now destruct Hsv as [<- _]).
  destruct (get_location_now_result utc_offset geocoder_reverse time_now g st i
              sv hrs mins) as (location & speed & _ & _ & Hres); trivial.
  - rewrite Hce. now apply (nearest_first_match utc_offset time_now _ i t).
  - now rewrite He.
  - now rewrite He.
  - rewrite Hbound in Hres. eexists. exists i, t.
    split; [exact Hres|]. cbn [ln_closest_epoch ln_seconds_from_now].
    repeat split; trivial. lia.
Qed.

End LocationRoutes.

Lemma three_records_readable : Forall readable (state_vector_data three_records).
Proof.
  repeat constructor.
  - now apply (on_x_axis_readable _ 11 59).
  - now apply (on_x_axis_readable _ 12 0).
  - now apply (on_x_axis_readable _ 12 1).
Qed.

Lemma location_of_unknown_epoch_witness :
  (forall v, (forall sv, v <> StateVectorDict sv) ->
     convert_j2k_to_geoposition v = Returned (Text invalid_epoch))
  /\ get_state_vector three_records "2023-059T00:00:00.000Z"
     = Returned (Text epoch_not_found)
  /\ get_location over_water three_records "2023-059T00:00:00.000Z"
     = Returned (Text invalid_epoch_hint).
Proof.
  apply (location_of_unknown_epoch over_water three_records
           "2023-059T00:00:00.000Z").
  - reflexivity.
  - repeat constructor; simpl; discriminate.
Defined.

Lemma location_of_known_epoch_witness :
  exists location,
    convert_j2k_to_geoposition (StateVectorDict (x_axis_vector (EPOCH after_noon)))
    = Returned (Geodata location)
    /\ get_location over_water three_records (EPOCH after_noon)
       = Returned (LocationData
                     {| ld_EPOCH := EPOCH after_noon;
                        ld_location := location;
                        ld_geo := match over_water (latitude location)
                                          (longitude location) with
                                  | Some fields => Address fields
                                  | None => OverWater
                                  end;
                        ld_speed := speed_of_vector
                                      (x_axis_vector (EPOCH after_noon)) |}).
Proof.
  apply (location_of_known_epoch over_water three_records (EPOCH after_noon)
           after_noon (x_axis_vector (EPOCH after_noon)) 12 0).
  - reflexivity.
  - exists [before_noon], [later]. split; [reflexivity|]. split; [reflexivity|].
    repeat constructor. simpl. discriminate.
  - apply on_x_axis_reads.
  - reflexivity.
  - reflexivity.
  - apply x_axis_squares_in_range.
Defined.

Lemma location_now_agrees_with_location_witness :
  exists ln,
    get_location_now utc over_water three_records noon = Returned (LocationNow ln)
    /\ get_location over_water three_records (ln_closest_epoch ln)
       = Returned (LocationData
                     {| ld_EPOCH := ln_closest_epoch ln;
                        ld_location := ln_location ln;
                        ld_geo := ln_geo ln;
                        ld_speed := ln_speed ln |}).
Proof.
  destruct location_now_three_records as (location & speed & Hres & _).
  eexists. split; [exact Hres|].
  apply (location_now_agrees_with_location utc over_water noon three_records _ Hres).
Defined.

Lemma location_now_returns_when_first_is_not_nearest_witness :
  exists ln i t,
    get_location_now utc over_water three_records noon = Returned (LocationNow ln)
    /\ nearest utc noon (state_vector_data three_records) i t
    /\ ln_closest_epoch ln = EPOCH i
    /\ ln_seconds_from_now ln = t - noon
    /\ Z.abs (ln_seconds_from_now ln) < Z.abs (noon - (noon - 10)).
Proof.
  destruct three_records_timed as (H1 & H2 & _).
  apply (location_now_returns_when_first_is_not_nearest utc over_water noon
           three_records before_noon [after_noon; later] (noon - 10)).
  - reflexivity.
  - reflexivity.
  - exact three_records_all_timed.
  - exact three_records_readable.
  - exact H1.
  - exists after_noon, (noon + 2). split; [now left|]. split; [exact H2|].
    vm_compute. reflexivity.
Defined.

Lemma unreadable_epoch_breaks_now_witness :
  get_location_now utc over_water (loaded [before_noon; after_noon; no_epoch]) noon
  = Raised ValueError.
Proof.
  apply (unreadable_epoch_breaks_now utc over_water noon
           (loaded [before_noon; after_noon; no_epoch]) no_epoch).
  - reflexivity.
  - simpl. tauto.
  - reflexivity.
Defined.

(* ================================================================== *)
(** * The suffix of an epoch, a reload that fails, and unreadable epochs *)

Lemma length_append_ge (s u : string) :
  (String.length u <= String.length (s ++ u))%nat.
Proof. induction s as [|c s IH]; simpl; lia. Qed.

(** Dropping the last characters of [s ++ u], as many as [u] has, leaves
    [s]. *)
Lemma drop_last_append (s u : string) :
  drop_last (String.length u) (s ++ u) = s.
Proof.
  unfold drop_last. induction s as [|c s IH]; cbn [append String.length].
  - rewrite Nat.sub_diag. now destruct u.
  - pose proof (length_append_ge s u).
    replace (S (String.length (s ++ u)) - String.length u)%nat
      with (S (String.length (s ++ u) - String.length u)) by lia.
    cbn [substring]. now rewrite IH.
Qed.

(** X16: the last five characters of an epoch do not count.  The time of
    an epoch is the time of the text before its last five characters, so
    two epochs that differ only there (the milliseconds and the zone
    letter) are the same instant for the scan. *)
Theorem epoch_time_ignores_suffix (utc_offset : struct_time -> Z)
    (stamp suffix suffix' : string) :
  String.length suffix = 5%nat ->
  String.length suffix' = 5%nat ->
  epoch_time utc_offset (stamp ++ suffix)
  = option_map (mktime utc_offset) (strptime stamp)
  /\ epoch_time utc_offset (stamp ++ suffix)
     = epoch_time utc_offset (stamp ++ suffix').
Proof.
  intros H H'. unfold epoch_time.
  assert (Hdrop : forall u, String.length u = 5%nat ->
                            drop_last 5 (stamp ++ u) = stamp).
  { intros u Hu. rewrite <- Hu. apply drop_last_append. }
  now rewrite !Hdrop.
Qed.

Lemma epoch_time_ignores_suffix_witness :
  epoch_time utc ("2023-058T12:00:00" ++ ".000Z")
  = option_map (mktime utc) (strptime "2023-058T12:00:00")
  /\ epoch_time utc ("2023-058T12:00:00" ++ ".000Z")
     = epoch_time utc ("2023-058T12:00:00" ++ ".999+").
Proof.
  apply (epoch_time_ignores_suffix utc "2023-058T12:00:00" ".000Z" ".999+");
    reflexivity.
Defined.

(** X17: a reload that fails half way.  When the fetched document has no
    state vectors, [retrieve_data_again] raises [KeyError] after it has
    rebound [all_data]: the document route serves the new document while
    the records are the old ones.  On a store that held data every query
    on the records answers as before the reload; on an emptied store the
    queries pass the no-data test and run on zero records. *)
Theorem failed_reload_keeps_old_records (utc_offset : struct_time -> Z)
    (geocoder_reverse : pyfloat -> pyfloat -> option (list (string * string)))
    (fetched : ndm) (g : globals) :
  data_stateVector fetched = [] ->
  snd (retrieve_data_again fetched g) = Raised KeyError
  /\ get_all_data (fst (retrieve_data_again fetched g)) = inr fetched
  /\ (no_data g = false ->
      forall (epoch : string) (limit_arg offset_arg : option string)
             (time_now : Z),
        get_state_vector (fst (retrieve_data_again fetched g)) epoch
        = get_state_vector g epoch
        /\ get_list_of_epochs (fst (retrieve_data_again fetched g))
             limit_arg offset_arg
           = get_list_of_epochs g limit_arg offset_arg
        /\ get_speed (fst (retrieve_data_again fetched g)) epoch
           = get_speed g epoch
        /\ get_location geocoder_reverse (fst (retrieve_data_again fetched g))
             epoch
           = get_location geocoder_reverse g epoch
        /\ get_location_now utc_offset geocoder_reverse
             (fst (retrieve_data_again fetched g)) time_now
           = get_location_now utc_offset geocoder_reverse g time_now)
  /\ (no_data g = true -> state_vector_data g = [] ->
      forall (epoch : string) (time_now : Z),
        get_state_vector (fst (retrieve_data_again fetched g)) epoch
        = Returned (Text epoch_not_found)
        /\ get_list_of_epochs (fst (retrieve_data_again fetched g)) None None
           = Text (offset_out_of_range 0)
        /\ get_speed (fst (retrieve_data_again fetched g)) epoch
           = Returned (Text speed_not_found)
        /\ get_location geocoder_reverse (fst (retrieve_data_again fetched g))
             epoch
           = Returned (Text invalid_epoch_hint)
        /\ get_location_now utc_offset geocoder_reverse
             (fst (retrieve_data_again fetched g)) time_now
           = Raised KeyError).
Proof.
  intros Hnone. unfold retrieve_data_again. rewrite Hnone. cbn [fst snd].
  split; [reflexivity|]. split; [reflexivity|]. split.
  - intros Hdata epoch limit_arg offset_arg time_now.
    unfold get_state_vector, get_list_of_epochs, get_speed, get_location,
      get_location_now, get_state_vector, get_speed, find_closest, len, no_data
      in *.
    cbn [all_data state_vector_data].
    destruct (all_data g); [|discriminate]. repeat split.
  - intros Hdata Hitems epoch time_now.
    unfold get_state_vector, get_list_of_epochs, get_speed, get_location,
      get_location_now, get_state_vector, get_speed, find_closest, len, no_data.
    cbn [all_data state_vector_data]. rewrite Hitems. repeat split.
Qed.

(** A reply without state vectors, on the three sample records and on
    the emptied store. *)
Lemma failed_reload_keeps_old_records_witness :
  snd (retrieve_data_again {| COMMENT := ["reply"]; data_stateVector := [] |}
         three_records) = Raised KeyError
  /\ get_state_vector
       (fst (retrieve_data_again
               {| COMMENT := ["reply"]; data_stateVector := [] |} three_records))
       (EPOCH after_noon)
     = get_state_vector three_records (EPOCH after_noon)
  /\ get_location_now utc over_water half_loaded noon = Raised KeyError.
Proof.
  destruct (failed_reload_keeps_old_records utc over_water
              {| COMMENT := ["reply"]; data_stateVector := [] |} three_records
              eq_refl) as (Hraise & _ & Hkept & _).
  destruct (failed_reload_keeps_old_records utc over_water
              {| COMMENT := ["reply"]; data_stateVector := [] |} deleted
              eq_refl) as (_ & _ & _ & Hempty).
  split; [exact Hraise|]. split.
  - apply (Hkept eq_refl (EPOCH after_noon) None None noon).
  - apply (Hempty eq_refl eq_refl (EPOCH after_noon) noon).
Defined.

(** X20: an epoch whose hour or minute characters are not digits.  The
    two [int] conversions of the transform lie outside its [try], so for
    such an epoch, found in the store with readable numbers, the location
    route raises [ValueError] instead of answering with its hint. *)
Theorem location_of_malformed_epoch
    (geocoder_reverse : pyfloat -> pyfloat -> option (list (string * string)))
    (g : globals) (epoch : string) (i : stateVector) (sv : state_vector) :
  no_data g = false ->
  first_match epoch (state_vector_data g) i ->
  reads_as i sv ->
  Py.int (slice 9 11 epoch) = None \/ Py.int (slice 12 14 epoch) = None ->
  convert_j2k_to_geoposition (StateVectorDict sv) = Raised ValueError
  /\ get_location geocoder_reverse g epoch = Raised ValueError.
Proof.
  intros Hdata (pre & post & Hitems & Hi & Hpre) Hsv Hbad.
  assert (He : sv_EPOCH sv = epoch) by (destruct Hsv as [<- _]; exact Hi).
  assert (Hconv : convert_j2k_to_geoposition (StateVectorDict sv)
                  = Raised ValueError).
  { unfold convert_j2k_to_geoposition. rewrite He.
    destruct Hbad as [-> | ->]; [reflexivity|].
    now destruct (Py.int (slice 9 11 epoch)). }
  split; [exact Hconv|].
  unfold get_location, get_state_vector. rewrite Hdata, Hitems.
  rewrite (state_vector_loop_found epoch i sv post pre Hpre Hi Hsv).
  cbn [bind]. now rewrite Hconv.
Qed.

(** The epoch of [no_epoch] has no digits where the hour is read. *)
Lemma location_of_malformed_epoch_witness :
  convert_j2k_to_geoposition (StateVectorDict (x_axis_vector (EPOCH no_epoch)))
  = Raised ValueError
  /\ get_location over_water (loaded [before_noon; no_epoch]) (EPOCH no_epoch)
     = Raised ValueError.
Proof.
  apply (location_of_malformed_epoch over_water (loaded [before_noon; no_epoch])
           (EPOCH no_epoch) no_epoch (x_axis_vector (EPOCH no_epoch))).
  - reflexivity.
  - exists [before_noon], []. split; [reflexivity|]. split; [reflexivity|].
    repeat constructor. simpl. discriminate.
  - apply on_x_axis_reads.
  - left. reflexivity.
Defined.

(* ================================================================== *)
(** * The transform over the poles *)

Lemma square_of_zero (x : pyfloat) :
  is_zero x = true -> (x * x)%float = Finite 0.
Proof.
  destruct x as [r| | | |]; cbn [is_zero]; try discriminate.
  - destruct (Req_dec_T r 0) as [->|]; [intros _|discriminate].
    rewrite square_small by small. f_equal. ring.
  - reflexivity.
Qed.

Lemma zero_does_not_overflow (x : pyfloat) : is_zero x = true -> ~ overflows x.
Proof.
  destruct x as [r| | | |]; cbn [is_zero]; try discriminate.
  - destruct (Req_dec_T r 0) as [->|]; [intros _|discriminate].
    apply small_does_not_overflow. small.
  - intros _ (r & H & _). discriminate.
Qed.

Lemma math_degrees_quarter_turn :
  math_degrees (Finite (PI / 2)) = Finite 90
  /\ math_degrees (Finite (- (PI / 2))) = Finite (- 90).
Proof.
  pose proof PI_RGT_0 as Hpi.
  assert (Hq : (PI / 2 * (180 / PI) = 90)%R) by (field; lra).
  assert (Hpos : (0 < 180 / PI)%R) by (apply Rdiv_lt_0_compat; lra).
  unfold math_degrees. split.
  - rewrite fmul_small; [now rewrite Hq|exact Hpos|].
    rewrite Hq. small.
  - rewrite fmul_small; [f_equal; lra|exact Hpos|].
    replace (- (PI / 2) * (180 / PI))%R with (- 90)%R by lra. small.
Qed.

(** X19: over a pole.  For a position on the z axis (x and y are zeros of
    either sign, z is a number other than zero) at an epoch whose hour
    and minute are read: as long as the square of z is in the range of
    floats the transform returns latitude 90 for z above zero and -90 for
    z below, and the altitude is the distance |z| less the mean radius;
    otherwise it raises [OverflowError]. *)
Theorem latitude_over_the_poles (sv : state_vector) (z : R) (hrs mins : Z) :
  is_zero (sv_X sv) = true -> is_zero (sv_Y sv) = true ->
  sv_Z sv = Finite z -> z <> 0%R ->
  Py.int (slice 9 11 (sv_EPOCH sv)) = Some hrs ->
  Py.int (slice 12 14 (sv_EPOCH sv)) = Some mins ->
  (~ overflows (Finite z) ->
   exists g,
     convert_j2k_to_geoposition (StateVectorDict sv) = Returned (Geodata g)
     /\ ((0 < z)%R -> latitude g = 90%R)
     /\ ((z < 0)%R -> latitude g = (- 90)%R)
     /\ altitude g = {| m_value := Rabs z - 6371; m_units := "km" |})
  /\ (overflows (Finite z) ->
      convert_j2k_to_geoposition (StateVectorDict sv) = Raised OverflowError).
Proof.
  intros Hx Hy Hz Hnz Hh Hm. split.
  - intros Hin. exists (geodata_of_vector sv hrs mins).
    assert (Hsmall : (z * z < overflow_threshold)%R).
    { apply Rnot_le_lt. intros Hout. apply Hin. now exists z. }
    pose proof overflow_threshold_pos as Ht.
    assert (Habs : (Rabs z < overflow_threshold)%R).
    { apply Rnot_le_lt. intros Hbig.
      assert (Rabs z * Rabs z = z * z)%R
        by (rewrite <- Rabs_mult; apply Rabs_right; nra).
      nra. }
    split; [|split; [|split]].
    + apply convert_in_range; trivial.
      * now apply zero_does_not_overflow.
      * now apply zero_does_not_overflow.
      * now rewrite Hz.
    + intros Hpos. cbn [geodata_of_vector latitude]. unfold spec_latitude.
      rewrite (square_of_zero _ Hx), (square_of_zero _ Hy), Hz.
      rewrite fadd_small by small. cbn [root].
      destruct (Rlt_dec (0 + 0) 0) as [Hneg|_]; [lra|].
      replace (0 + 0)%R with 0%R by ring. rewrite sqrt_0.
      cbn [math_atan2 is_zero]. destruct (Req_dec_T z 0) as [|_]; [lra|].
      unfold angle. destruct (Rlt_dec 0 0) as [|_]; [lra|].
      destruct (Rlt_dec 0 z) as [_|]; [|lra].
      apply math_degrees_quarter_turn.
    + intros Hneg. cbn [geodata_of_vector latitude]. unfold spec_latitude.
      rewrite (square_of_zero _ Hx), (square_of_zero _ Hy), Hz.
      rewrite fadd_small by small. cbn [root].
      destruct (Rlt_dec (0 + 0) 0) as [Hlt|_]; [lra|].
      replace (0 + 0)%R with 0%R by ring. rewrite sqrt_0.
      cbn [math_atan2 is_zero]. destruct (Req_dec_T z 0) as [|_]; [lra|].
      unfold angle. destruct (Rlt_dec 0 0) as [|_]; [lra|].
      destruct (Rlt_dec 0 z) as [|_]; [lra|].
      destruct (Rlt_dec z 0) as [_|]; [|lra].
      apply math_degrees_quarter_turn.
    + cbn [geodata_of_vector altitude]. unfold spec_altitude. f_equal.
      rewrite (square_of_zero _ Hx), (square_of_zero _ Hy), Hz.
      rewrite fadd_small by small.
      assert (Hsq : (Finite z * Finite z)%float = Finite (z * z)).
      { pose proof (pow2_in_range _ Hin) as Hp. cbn [pow2] in Hp.
        destruct (Rlt_dec (z * z) overflow_threshold); [|lra].
        now injection Hp. }
      rewrite Hsq. cbn [fadd]. unfold round.
      rewrite Rabs_right by nra.
      destruct (Rlt_dec (0 + 0 + z * z) overflow_threshold) as [_|]; [|lra].
      cbn [root]. destruct (Rlt_dec (0 + 0 + z * z) 0) as [|_]; [nra|].
      replace (0 + 0 + z * z)%R with (Rsqr z) by (unfold Rsqr; ring).
      rewrite sqrt_Rsqr_abs. unfold of_int, fsub, fneg.
      destruct (Req_dec_T (IZR 6371) 0) as [|_]; [lra|].
      cbn [fadd]. unfold round.
      pose proof (Rabs_pos z).
      destruct (Rlt_dec (Rabs (Rabs z + - IZR 6371)) overflow_threshold)
        as [_|Hbig]; [reflexivity|].
      exfalso. apply Hbig. apply Rabs_def1; lra.
  - intros Hout. apply (convert_overflows sv hrs mins); trivial.
    right. right. now rewrite Hz.
Qed.

(** The record over the north pole, 7000 km from the centre, at noon. *)
Lemma latitude_over_the_poles_witness :
  exists g,
    convert_j2k_to_geoposition
      (StateVectorDict
         {| sv_EPOCH := EPOCH at_noon; sv_X := 0; sv_Y := NegZero; sv_Z := 7000;
            sv_X_DOT := 0; sv_Y_DOT := 0; sv_Z_DOT := 0 |})
    = Returned (Geodata g)
    /\ ((0 < 7000)%R -> latitude g = 90%R)
    /\ ((7000 < 0)%R -> latitude g = (- 90)%R)
    /\ altitude g = {| m_value := Rabs 7000 - 6371; m_units := "km" |}.
Proof.
  apply (latitude_over_the_poles
           {| sv_EPOCH := EPOCH at_noon; sv_X := 0; sv_Y := NegZero; sv_Z := 7000;
              sv_X_DOT := 0; sv_Y_DOT := 0; sv_Z_DOT := 0 |} 7000 12 0).
  - cbn [sv_X is_zero]. now destruct (Req_dec_T 0 0).
  - reflexivity.
  - reflexivity.
  - lra.
  - reflexivity.
  - reflexivity.
  - apply small_does_not_overflow. small.
Defined.
